(** * MarketWatch scrapper: a shallow embedding of
      [src/marketwatch_scrapper/marketwatch_scrapper.py]

    Text is modelled as [string] (a sequence of 8-bit characters): URLs and
    Wayback timestamps are ASCII, and on ASCII text the regular-expression
    class [\d] is exactly the characters ['0'] .. ['9'].

    Python exceptions are modelled by the [result] type below; the external
    collaborators (HTTP session, the newspaper page parser, pandas sampling
    and sorting) are variables of the sections that use them. *)

From Stdlib Require Import Bool Arith List ZArith Lia.
From Stdlib Require Import Ascii String DecimalString.
From Stdlib Require Import Permutation.
Import ListNotations.

Open Scope string_scope.

(* ================================================================== *)
(** ** Python string primitives *)
(* ================================================================== *)

Module PyStr.

(** [s[n:]] *)
Fixpoint drop (n : nat) (s : string) : string :=
  match n, s with
  | O, _ => s
  | S _, EmptyString => EmptyString
  | S k, String _ s' => drop k s'
  end.

(** [sub in s] *)
Fixpoint contains (sub s : string) : bool :=
  if prefix sub s then true
  else match s with
       | EmptyString => false
       | String _ s' => contains sub s'
       end.

(** The text that follows the right-most occurrence of [sep] in [s], when
    there is one ([sep] is never empty in this program). *)
Fixpoint after_last (sep s : string) : option string :=
  match s with
  | EmptyString => None
  | String _ s' =>
      match after_last sep s' with
      | Some r => Some r
      | None => if prefix sep s then Some (drop (length sep) s) else None
      end
  end.

(** [s.rsplit(sep, 1)[-1]] *)
Definition rsplit1_last (sep s : string) : string :=
  match after_last sep s with
  | Some r => r
  | None => s
  end.

(** The text that precedes the right-most occurrence of [sep]. *)
Fixpoint before_last (sep s : string) : option string :=
  match s with
  | EmptyString => None
  | String c s' =>
      match before_last sep s' with
      | Some r => Some (String c r)
      | None => if prefix sep s then Some EmptyString else None
      end
  end.

(** [s.rsplit(sep, 1)[0]] *)
Definition rsplit1_first (sep s : string) : string :=
  match before_last sep s with
  | Some r => r
  | None => s
  end.

(** [s.startswith(p)] *)
Definition startswith (p s : string) : bool := prefix p s.

(** ['0'] .. ['9'], the class [\d] *)
Definition is_digit (c : ascii) : bool :=
  let n := nat_of_ascii c in ((48 <=? n) && (n <=? 57))%nat.

(** [len(re.compile(r'\d').findall(s))] *)
Fixpoint count_digits (s : string) : nat :=
  match s with
  | EmptyString => 0
  | String c s' => (if is_digit c then 1 else 0) + count_digits s'
  end.

(** membership of a character in a string *)
Fixpoint char_in (c : ascii) (s : string) : bool :=
  match s with
  | EmptyString => false
  | String d s' => Ascii.eqb c d || char_in c s'
  end.

(** [s.replace(old, '')]: the left-most, non-overlapping occurrences of
    [old] are removed; [skip] counts the characters of a matched occurrence
    still to be passed over. *)
Fixpoint remove_from (old : string) (skip : nat) (s : string) : string :=
  match s with
  | EmptyString => EmptyString
  | String c s' =>
      match skip with
      | S k => remove_from old k s'
      | O => if prefix old s
             then remove_from old (length old - 1) s'
             else String c (remove_from old 0 s')
      end
  end.

Definition remove (old s : string) : string := remove_from old 0 s.

(** [s.split(sep)] for a one-character separator: [cur] is the segment being
    read. *)
Fixpoint split_from (sep : ascii) (cur : string) (s : string) : list string :=
  match s with
  | EmptyString => [cur]
  | String c s' =>
      if Ascii.eqb c sep
      then cur :: split_from sep EmptyString s'
      else split_from sep (cur ++ String c EmptyString) s'
  end.

Definition split (sep : ascii) (s : string) : list string :=
  split_from sep EmptyString s.

(** [str.isspace] on one ASCII character: tab, LF, VT, FF, CR, the four
    separators 0x1c-0x1f and the space. *)
Definition is_space (c : ascii) : bool :=
  let n := nat_of_ascii c in
  (((9 <=? n) && (n <=? 13)) || ((28 <=? n) && (n <=? 32)))%nat.

Fixpoint lstrip (s : string) : string :=
  match s with
  | EmptyString => EmptyString
  | String c s' => if is_space c then lstrip s' else s
  end.

Fixpoint rstrip (s : string) : string :=
  match s with
  | EmptyString => EmptyString
  | String c s' =>
      match rstrip s' with
      | EmptyString => if is_space c then EmptyString else String c EmptyString
      | r => String c r
      end
  end.

(** [s.strip()] *)
Definition strip (s : string) : string := rstrip (lstrip s).

(** [sep.join(l)] *)
Definition join (sep : string) (l : list string) : string := concat sep l.

(** truthiness of a string *)
Definition nonempty (s : string) : bool :=
  match s with EmptyString => false | _ => true end.

End PyStr.
Import PyStr.

(* ================================================================== *)
(** ** Link classification and canonical keys *)
(* ================================================================== *)

(** [is_article], lines 145-152 *)
Definition is_article (url : string) : bool :=
  let url := rsplit1_last "https://" url in
  if negb (contains "-" url) then false
  else
    let tail := rsplit1_last "-" url in
    (3 <? count_digits tail)%nat.

(** The key of [get_all_article_links], lines 392-394:
    [lambda x: x.rsplit('https://', 1)[-1]] *)
Definition article_url (x : string) : string := rsplit1_last "https://" x.

(** The key of [get_all_records], lines 334-340:
    ['/'.join([i.strip() for i in
       x.replace('http://', '').replace('https://', '').split('/')
       if i.strip()])] *)
Definition clean_url (x : string) : string :=
  join "/"
    (map strip
       (filter (fun i => nonempty (strip i))
          (split "/" (remove "https://" (remove "http://" x))))).

(** A text that does not start with white space *)
Definition no_lead (s : string) : Prop :=
  match s with
  | EmptyString => True
  | String c _ => is_space c = false
  end.

(** A path segment of a clean URL: not empty, without ['/'], stripped *)
Definition good_segment (seg : string) : Prop :=
  nonempty seg = true /\ char_in "/" seg = false /\ strip seg = seg.

(* ================================================================== *)
(** ** Regular expressions on digits *)
(* ================================================================== *)

(** The first [n] characters of [s], when all of them are digits: a match of
    [\d{n}] at the start of [s]. *)
Fixpoint take_digits (n : nat) (s : string) : option string :=
  match n with
  | O => Some EmptyString
  | S k =>
      match s with
      | EmptyString => None
      | String c s' =>
          if is_digit c
          then match take_digits k s' with
               | Some m => Some (String c m)
               | None => None
               end
          else None
      end
  end.

(** [re.findall(r'\d{n}', s)]: the non-overlapping matches, left to right;
    [skip] counts the characters of the last match still to be passed. *)
Fixpoint findall_digits (n skip : nat) (s : string) : list string :=
  match s with
  | EmptyString => []
  | String _ s' =>
      match skip with
      | S k => findall_digits n k s'
      | O =>
          match take_digits n s with
          | Some m => m :: findall_digits n (n - 1) s'
          | None => findall_digits n 0 s'
          end
      end
  end.

(** The left-most match of [\d{n}] in [s]: [re.search], [Series.str.extract]. *)
Fixpoint search_digits (n : nat) (s : string) : option string :=
  match take_digits n s with
  | Some m => Some m
  | None =>
      match s with
      | EmptyString => None
      | String _ s' => search_digits n s'
      end
  end.

(** A match of [\d{8}$] that starts at the start of [s]: eight digits, then
    the end of the text or one line feed and the end. *)
Definition match_digits8_eol (s : string) : option string :=
  match take_digits 8 s with
  | Some m =>
      let rest := drop 8 s in
      if String.eqb rest "" || String.eqb rest (String "010"%char "")
      then Some m else None
  | None => None
  end.

(** [re.compile(r'\d{8}$').findall(s)] *)
Fixpoint findall_digits8_eol (s : string) : list string :=
  match match_digits8_eol s with
  | Some m => [m]
  | None =>
      match s with
      | EmptyString => []
      | String _ s' => findall_digits8_eol s'
      end
  end.

(* ================================================================== *)
(** ** Exceptions and dynamically typed values *)
(* ================================================================== *)

(** The subclasses of [Exception] this program meets. *)
Inductive exn : Type :=
| RequestException
| TypeError
| IndexError
| ValueError
| KeyError
| AttributeError
| OtherException.

Inductive result (A : Type) : Type :=
| Ok (a : A)
| Raise (e : exn).
Arguments Ok {A} a.
Arguments Raise {A} e.

Definition bind {A B : Type} (m : result A) (k : A -> result B) : result B :=
  match m with
  | Ok a => k a
  | Raise e => Raise e
  end.

Declare Scope py_scope.
Delimit Scope py_scope with py.
Notation "x <- m ;; k" := (bind m (fun x => k))
  (at level 61, m at next level, right associativity) : py_scope.
Notation "' pat <- m ;; k" := (bind m (fun x => match x with pat => k end))
  (at level 61, pat pattern, m at next level, right associativity) : py_scope.
Open Scope py_scope.

(** [try: body  except Exception: handler] *)
Definition try_except {A : Type} (body : result A) (handler : exn -> result A)
  : result A :=
  match body with
  | Ok a => Ok a
  | Raise e => handler e
  end.

(** Running a list of tasks and reading their results in submission order:
    [futures = [executor.submit(f, x) for x in l]] followed by
    [future.result()] for each future; the first exception met is raised. *)
Fixpoint map_results {A B : Type} (f : A -> result B) (l : list A)
  : result (list B) :=
  match l with
  | [] => Ok []
  | x :: l' =>
      y <- f x ;;
      ys <- map_results f l' ;;
      Ok (y :: ys)
  end.

(** The values that reach the keyword and date code. [PyDict0] is the empty
    dict that newspaper's [meta_data], a [defaultdict(dict)], gives for a
    missing key. *)
Inductive pyval : Type :=
| PyNone
| PyStr (s : string)
| PyList (l : list string)
| PyDict0.

(** truth value of a Python object *)
Definition truthy (v : pyval) : bool :=
  match v with
  | PyNone => false
  | PyStr s => nonempty s
  | PyList l => match l with [] => false | _ => true end
  | PyDict0 => false
  end.

(** [a or b] *)
Definition py_or (a b : pyval) : pyval := if truthy a then a else b.

(** [re.compile(pattern)]: the pattern must be a string (or a compiled
    pattern); a list is unhashable and raises [TypeError] in the cache
    lookup. A compiled pattern is represented by its source text. *)
Definition re_compile (pattern : pyval) : result string :=
  match pattern with
  | PyStr p => Ok p
  | _ => Raise TypeError
  end.

(* ================================================================== *)
(** ** Dates *)
(* ================================================================== *)

Record date : Type := mkdate { year : nat; month : nat; day : nat }.

Record datetime : Type :=
  mkdatetime { dt_date : date; hour : nat; minute : nat; second : nat }.

Definition is_leap (y : nat) : bool :=
  ((y mod 4 =? 0) && negb (y mod 100 =? 0) || (y mod 400 =? 0))%nat.

Definition days_in_month (y m : nat) : nat :=
  match m with
  | 2 => if is_leap y then 29 else 28
  | 4 | 6 | 9 | 11 => 30
  | _ => 31
  end.

Definition digit_val (c : ascii) : nat := nat_of_ascii c - 48.

(** value of a string of decimal digits *)
Fixpoint dec_from (acc : nat) (s : string) : nat :=
  match s with
  | EmptyString => acc
  | String c s' => dec_from (10 * acc + digit_val c) s'
  end.

Definition dec (s : string) : nat := dec_from 0 s.

(** [datetime.datetime.strptime(s, '%Y%m%d').date()] on a text of eight
    digits: [%Y] reads four of them, [%m] and [%d] two each (a shorter read
    leaves unconverted data); [ValueError] when the month or the day is out
    of range or the year is 0. *)
Definition strptime_Ymd (s : string) : result date :=
  let y := dec (substring 0 4 s) in
  let m := dec (substring 4 2 s) in
  let d := dec (substring 6 2 s) in
  if ((1 <=? y) && (1 <=? m) && (m <=? 12) && (1 <=? d)
      && (d <=? days_in_month y m))%nat
  then Ok (mkdate y m d)
  else Raise ValueError.

Definition digit_char (n : nat) : ascii := ascii_of_nat (48 + n).

Definition two_digits (n : nat) : string :=
  String (digit_char (n / 10)) (String (digit_char (n mod 10)) EmptyString).

Definition decimal (n : nat) : string :=
  NilEmpty.string_of_uint (Nat.to_uint n).

(** [d.strftime('%Y-%m-%d')] ([%Y] as the C library prints it) *)
Definition strftime_iso (d : date) : string :=
  decimal (year d) ++ "-" ++ two_digits (month d) ++ "-" ++ two_digits (day d).

(** [f"{d:%Y%m%d}"] *)
Definition strftime_Ymd (d : date) : string :=
  decimal (year d) ++ two_digits (month d) ++ two_digits (day d).

Definition date_eqb (a b : date) : bool :=
  ((year a =? year b) && (month a =? month b) && (day a =? day b))%nat.

Definition date_ltb (a b : date) : bool :=
  ((year a <? year b)
   || (year a =? year b)
      && ((month a <? month b)
          || (month a =? month b) && (day a <? day b)))%nat.

(* ================================================================== *)
(** ** The outside world *)
(* ================================================================== *)

(** [requests.Response]: what the program reads of it *)
Record Response : Type := mkResponse { status_code : nat; text : string }.

(** [newspaper.Article] after [download], [parse] and [nlp]: the attributes
    the program reads. [meta_data] is a [defaultdict(dict)]. *)
Record Article : Type := mkArticle {
  title : string;
  meta_keywords : list string;
  art_keywords : list string;
  meta_data : string -> option pyval;
  meta_description : string;
  art_text : string;
  art_summary : string;
  publish_date : option datetime
}.

(** [article.meta_data[k]] *)
Definition md_getitem (a : Article) (k : string) : pyval :=
  match meta_data a k with
  | Some v => v
  | None => PyDict0
  end.

(** [article.meta_data.get(k, default)] *)
Definition md_get (a : Article) (k : string) (default : pyval) : pyval :=
  match meta_data a k with
  | Some v => v
  | None => default
  end.

(** The libraries and the network the program calls. *)
Record World : Type := mkWorld {
  (** [session.get(url, timeout=..., headers=...)]; transport errors and
      exhausted retries raise [RequestException] *)
  session_get : string -> result Response;
  (** [resp.json()] of the index answer: rows [[timestamp, original]] *)
  response_json : Response -> result (list (string * string));
  (** [[link['href'] for link in
        BeautifulSoup(text, "html.parser").find_all('a', href=True)]] *)
  soup_hrefs : string -> list string;
  (** [list(set(l))] *)
  set_to_list : list string -> list string;
  (** [Article(...)], [download(input_html=text)], [parse()], [nlp()] *)
  parse_article : string -> result Article;
  (** [compiled.search(s) is not None], the pattern given by its text *)
  re_search : string -> string -> bool;
  (** [pd.to_datetime(s, format=fmt)] on one entry *)
  to_datetime : string -> string -> result datetime;
  (** [df.sort_values(by='datetime')] *)
  sort_values : forall A : Type, (A -> datetime) -> list A -> list A;
  (** [df.sample(n=n, replace=False, random_state=seed)] *)
  df_sample : forall A : Type, Z -> nat -> list A -> list A
}.

(** What pandas promises of [sample] without replacement and of
    [sort_values]: [n] rows taken at different positions, and a
    rearrangement of the rows. *)
Record pandas_ok (w : World) : Prop := mk_pandas_ok {
  sample_length : forall (A : Type) seed n (l : list A),
      (n <= List.length l)%nat -> List.length (df_sample w A seed n l) = n;
  sample_without_replacement : forall (A : Type) seed n (l : list A),
      (n <= List.length l)%nat ->
      exists rest, Permutation (df_sample w A seed n l ++ rest)%list l;
  sort_values_perm : forall (A : Type) key (l : list A),
      Permutation (sort_values w A key l) l
}.

(* ================================================================== *)
(** ** Fetching *)
(* ================================================================== *)

(** [safe_get], lines 59-74: [raise_for_status] raises an [HTTPError], a
    [RequestException], on a status in 400..599. *)
Definition safe_get (w : World) (url : string) : result (option Response) :=
  try_except
    (resp <- session_get w url ;;
     if ((400 <=? status_code resp) && (status_code resp <? 600))%nat
     then Raise RequestException
     else Ok (Some resp))
    (fun e => match e with
              | RequestException => Ok None
              | _ => Raise e
              end).

(** The index request of [cdx_query], lines 123-133 *)
Definition cdx_url (url : string) (start_date end_date : date) : string :=
  "https://web.archive.org/cdx/search/cdx"
  ++ "?url=" ++ url
  ++ "&fl=timestamp,original"
  ++ "&from=" ++ strftime_Ymd start_date
  ++ "&to=" ++ strftime_Ymd end_date
  ++ "&output=json"
  ++ "&filter=mimetype:text/html"
  ++ "&filter=statuscode:200"
  ++ "&collapse=digest".

(** [cdx_query], lines 123-142 *)
Definition cdx_query (w : World) (url : string) (start_date end_date : date)
  : result (list (string * string)) :=
  resp <- safe_get w (cdx_url url start_date end_date) ;;
  match resp with
  | None => Ok []
  | Some resp =>
      rows <- response_json w resp ;;
      let records := tl rows in
      Ok records
  end.

(* ================================================================== *)
(** ** Link extraction *)
(* ================================================================== *)

Definition TOPICS : list string :=
  [ "/investing/technology"; "/investing/autos"; "/investing/banking";
    "/markets/us"; "/investing/industries"; "/investing/stocks";
    "/investing/internet-online-services"; "/investing/retail";
    "/latest-news"; "/markets/financial-markets"; "/investing/software";
    "/markets" ].

Definition EXCLUDE_PATTERNS : list string :=
  [ "signin"; "login"; "subscri"; "member"; "footer"; "about"; "contact";
    "privacy"; "terms"; "help"; "video"; "podcast"; "audio"; "-worship";
    "architecture"; "lifestyle"; "fashion"; "on-the-clock"; "recipes";
    "travel"; "real-estate"; "science"; "health"; "sports"; "arts-culture";
    "art-review"; "obituar"; "wine"; "film-review"; "book-review";
    "television-review"; "arts"; "art"; "-review"; "bookshelf";
    "play.google"; "apple.com/us/app"; "policy/legal-policies"; "djreprints";
    "register"; "wsj.jobs"; "smartmoney"; "classifieds"; "cultural";
    "masterpiece"; "puzzle"; "personal-finance"; "style"; "customercenter";
    "snapchat"; "cookie-notice"; "facebook"; "instagram"; "twitter";
    "/policy/copyright-policy"; "/policy/data-policy"; "market-data/quotes/";
    "buyside"; "accessibility-statement"; "press-room"; "mansionglobal";
    "images"; "mailto"; "youtube"; "#"; "get.investors" ].

Definition lower_char (c : ascii) : ascii :=
  let n := nat_of_ascii c in
  if ((65 <=? n) && (n <=? 90))%nat then ascii_of_nat (n + 32) else c.

(** [s.lower()] *)
Fixpoint lower (s : string) : string :=
  match s with
  | EmptyString => EmptyString
  | String c s' => String (lower_char c) (lower s')
  end.

(** The loop of [extract_article_links], lines 165-181, over the [href]
    values of the anchors. *)
Fixpoint article_links_loop (hrefs : list string) (article_links : list string)
  : list string :=
  match hrefs with
  | [] => article_links
  | href :: rest =>
      if negb (nonempty href)
         || startswith "#" href
         || existsb (fun pattern => contains pattern (lower href))
                    EXCLUDE_PATTERNS
         || negb (startswith "http" href)
      then article_links_loop rest article_links
      else
        let href := rsplit1_first "?mod" href in
        if is_article href
        then article_links_loop rest (article_links ++ [href])%list
        else article_links_loop rest article_links
  end.

(** [extract_article_links], lines 155-183 *)
Definition extract_article_links (w : World) (hrefs : list string)
  : list string :=
  set_to_list w (article_links_loop hrefs []).

(* ================================================================== *)
(** ** Article extraction *)
(* ================================================================== *)

(** The dict [article_data]. [timestamp] holds the value of [re.findall]. *)
Record ArticleData : Type := mkArticleData {
  headline : string;
  content : string;
  summary : string;
  keywords : string;
  companies : string;
  date_field : string;
  url_field : string;
  timestamp : pyval;
  archive_url : string
}.

(** Lines 200-210 *)
Definition init_article_data (url : string) : ArticleData :=
  {| headline := "";
     content := "";
     summary := "";
     keywords := "";
     companies := "";
     date_field := "";
     url_field := url;
     timestamp := PyList (findall_digits 14 0 url);
     archive_url := url |}.

(** The argument of [re.compile] at lines 226-235: a list of patterns. *)
Definition excluded_keyword_patterns : pyval :=
  PyList [ "^\d+$"; "^LINK\|"; "WSJ"; "^SYND$";
           "factiva"; "filter"; "gfx-"; "factset" ].

(** [for keyword in v]: iterating an empty dict gives nothing *)
Definition iterate (v : pyval) : result (list string) :=
  match v with
  | PyList l => Ok l
  | PyStr s => Ok (map (fun c => String c EmptyString) (list_ascii_of_string s))
  | PyDict0 => Ok []
  | PyNone => Raise TypeError
  end.

(** [v.strip()]; only a string has the method *)
Definition py_strip (v : pyval) : result string :=
  match v with
  | PyStr s => Ok (strip s)
  | _ => Raise AttributeError
  end.

(** Lines 219-243: the keyword and company fields *)
Definition keywords_stage (w : World) (article : Article)
  : result (string * string) :=
  let keywords :=
    py_or (py_or (py_or (PyList (meta_keywords article))
                        (PyList (art_keywords article)))
                 (md_getitem article "news_keywords"))
          (md_getitem article "keywords") in
  let keywords :=
    match keywords with
    | PyStr s => PyList (split "," s)
    | _ => keywords
    end in
  excluded_keywords <- re_compile excluded_keyword_patterns ;;
  keyword_list <- iterate keywords ;;
  let keywords :=
    map (remove "wsj")
        (filter (fun keyword => negb (re_search w excluded_keywords keyword))
                keyword_list) in
  let keywords :=
    join ","
      (filter (fun x => negb (existsb (fun excluded => contains excluded (lower x))
                                      ["factiva"; "filter"]))
              keywords) in
  let companies := join "," (filter (contains "US:") (split "," keywords)) in
  Ok (keywords, companies).

(** The value bound to [date] at lines 253-256 *)
Inductive date_value : Type :=
| DateTimeValue (d : datetime)
| DateText (s : string).

(** Lines 253-263: [None] stands for Python's [None] *)
Definition date_stage (article : Article) : result (option date) :=
  date <-
    match publish_date article with
    | Some d => Ok (DateTimeValue d)
    | None =>
        matches <-
          match py_or (md_getitem article "article.id") (PyStr "") with
          | PyStr s => Ok (findall_digits8_eol s)
          | _ => Raise TypeError
          end ;;
        match matches with
        | m :: _ => Ok (DateText m)
        | [] => Raise IndexError
        end
    end ;;
  match date with
  | DateText s =>
      if (String.length s =? 8)%nat
      then try_except
             (d <- strptime_Ymd s ;; Ok (Some d))
             (fun e => match e with
                       | ValueError => Ok None
                       | _ => Raise e
                       end)
      else Ok None
  | DateTimeValue _ => Ok None
  end.

(** Line 269: [date.strftime('%Y-%m-%d') if date else ''] *)
Definition date_text (d : option date) : string :=
  match d with
  | Some d => strftime_iso d
  | None => ""
  end.

(** How one turn of the loop over the variants ends *)
Inductive outcome : Type :=
| Continue
| Return (article_data : ArticleData).

(** The body of the [try] statement, lines 196-270 *)
Definition variant_body (w : World) (url : string) : result outcome :=
  response <- safe_get w url ;;
  match response with
  | None => Ok Continue
  | Some response =>
      if negb (status_code response =? 200)%nat then Ok Continue
      else
        let article_data := init_article_data url in
        article <- parse_article w (text response) ;;
        '(keywords, companies) <- keywords_stage w article ;;
        title <- py_strip (py_or (py_or (PyStr (title article))
                                        (md_getitem article "parsely-title"))
                                 (PyStr "")) ;;
        let content :=
          if nonempty (meta_description article)
          then meta_description article ++ String "010"%char EmptyString
               ++ art_text article
          else art_text article in
        let summary :=
          py_or (PyStr (art_summary article))
                (md_get article "parsely-summary" (PyStr "")) in
        date <- date_stage article ;;
        summary <- py_strip summary ;;
        Ok (Return
              {| headline := title;
                 content := strip content;
                 summary := summary;
                 keywords := strip keywords;
                 companies := companies;
                 date_field := date_text date;
                 url_field := url_field article_data;
                 timestamp := timestamp article_data;
                 archive_url := archive_url article_data |})
  end.

(** The loop of [process_article_url] over any body: each turn runs under
    [try ... except Exception: continue]; the function ends with a bare
    [return] *)
Fixpoint process_loop (body : string -> result outcome) (urls : list string)
  : result (option ArticleData) :=
  match urls with
  | [] => Ok None
  | url :: rest =>
      o <- try_except (body url) (fun _ => Ok Continue) ;;
      match o with
      | Return article_data => Ok (Some article_data)
      | Continue => process_loop body rest
      end
  end.

(** [process_article_url], lines 186-274 *)
Definition process_article_url (w : World) (urls : list string)
  : result (option ArticleData) :=
  process_loop (variant_body w) urls.

(* ================================================================== *)
(** ** Grouping *)
(* ================================================================== *)

Section GroupBy.
Context {A K : Type}.
Variable keqb : K -> K -> bool.
Variable kltb : K -> K -> bool.
Variable key : A -> K.

(** Adds a row to the group of its key, or opens a group for a key not
    met before; the rows of a group stay in the order they are met. *)
Fixpoint add_to_group (k : K) (x : A) (groups : list (K * list A))
  : list (K * list A) :=
  match groups with
  | [] => [(k, [x])]
  | (k', xs) :: rest =>
      if keqb k k' then (k', (xs ++ [x])%list) :: rest
      else (k', xs) :: add_to_group k x rest
  end.

Fixpoint insert_by_key (g : K * list A) (groups : list (K * list A))
  : list (K * list A) :=
  match groups with
  | [] => [g]
  | g' :: rest =>
      if kltb (fst g) (fst g') then g :: groups
      else g' :: insert_by_key g rest
  end.

(** the groups in increasing key order *)
Definition sort_groups (groups : list (K * list A)) : list (K * list A) :=
  fold_right insert_by_key [] groups.

Definition collect_groups (rows : list A) : list (K * list A) :=
  fold_left (fun groups x => add_to_group (key x) x groups) rows [].

(** [df.groupby(keys)]: one group for each key, the keys sorted, the rows
    of a group in frame order *)
Definition groupby (rows : list A) : list (K * list A) :=
  sort_groups (collect_groups rows).

(** What holds of the groups collected from the rows [seen] *)
Definition groups_of (gs : list (K * list A)) (seen : list A) : Prop :=
  NoDup (map fst gs)
  /\ (forall k xs, In (k, xs) gs ->
                    xs = filter (fun y => keqb (key y) k) seen /\ xs <> [])
  /\ (forall y, In y seen -> In (key y) (map fst gs))
  /\ Permutation (flat_map snd gs) seen.
End GroupBy.

(* ================================================================== *)
(** ** The scrapper *)
(* ================================================================== *)

(** The attributes of [MarketWatchScrapper] set by [__init__] *)
Record Scrapper : Type := mkScrapper {
  site : string;
  start_date : date;
  end_date : date;
  topics : list string;
  max_workers : nat;
  no_of_captures : Z
}.

(** A row of the frame built at lines 330-340 *)
Record Row : Type := mkRow {
  row_timestamp : string;
  row_original : string;
  row_datetime : datetime
}.

(** The grouping key [['date', 'clean_url']] *)
Definition row_key (r : Row) : date * string :=
  (dt_date (row_datetime r), clean_url (row_original r)).

Definition key_eqb (a b : date * string) : bool :=
  date_eqb (fst a) (fst b) && String.eqb (snd a) (snd b).

Definition key_ltb (a b : date * string) : bool :=
  date_ltb (fst a) (fst b)
  || date_eqb (fst a) (fst b) && String.ltb (snd a) (snd b).

(** [random_choice], lines 297-308 *)
Definition random_choice (w : World) (self : Scrapper) (df : list Row)
  : list Row :=
  if (List.length df =? 0)%nat then []
  else
    df_sample w Row 42
      (Z.to_nat (Z.min (no_of_captures self) (Z.of_nat (List.length df))))
      df.

(** Lines 333-345: sorting, grouping and sampling the rows of the frame *)
Definition sample_rows (w : World) (self : Scrapper) (df : list Row)
  : list Row :=
  let df := sort_values w Row row_datetime df in
  let groups := groupby key_eqb key_ltb row_key df in
  flat_map (fun g => random_choice w self (snd g)) groups.

(** Lines 330-332: the frame of the records with its [datetime] column *)
Definition records_frame (w : World) (records : list (string * string))
  : result (list Row) :=
  map_results
    (fun rec =>
       dt <- to_datetime w "%Y%m%d%H%M%S" (fst rec) ;;
       Ok (mkRow (fst rec) (snd rec) dt))
    records.

(** Lines 330-346: the sampling of the index records *)
Definition sample_records (w : World) (self : Scrapper)
    (records : list (string * string)) : result (list (string * string)) :=
  df <- records_frame w records ;;
  let df := sample_rows w self df in
  Ok (map (fun r => (row_timestamp r, row_original r)) df).

(** [get_all_records], lines 296-351 *)
Definition get_all_records (w : World) (self : Scrapper)
  : result (list (string * string)) :=
  records <- cdx_query w (site self) (start_date self) (end_date self) ;;
  match records with
  | [] => Ok []
  | _ =>
      records <-
        (if (no_of_captures self >? -1)%Z
         then sample_records w self records
         else Ok records) ;;
      Ok (flat_map
            (fun x => map (fun topic => (fst x, snd x ++ "/" ++ topic))
                          (topics self))
            records)
  end.

(** [_do_get_article_links], lines 359-369 *)
Definition _do_get_article_links (w : World) (record : string * string)
  : result (option (list string)) :=
  let '(timestamp, website) := record in
  let archive_url :=
    "https://web.archive.org/web/" ++ timestamp ++ "/" ++ website in
  response <- safe_get w archive_url ;;
  match response with
  | None => Ok None
  | Some response =>
      let soup := soup_hrefs w (text response) in
      Ok (Some (set_to_list w (extract_article_links w soup)))
  end.

(** Lines 383-386: [if result: all_links.extend(result)] *)
Fixpoint extend_links (results : list (option (list string)))
    (all_links : list string) : list string :=
  match results with
  | [] => all_links
  | Some result :: rest => extend_links rest (all_links ++ result)%list
  | None :: rest => extend_links rest all_links
  end.

(** Lines 388-398: the [date] column, then the grouping by [article_url];
    the groups come out as the lists of their raw URLs. *)
Definition aggregate_links (w : World) (all_links : list string)
  : result (list (list string)) :=
  _ <- map_results
         (fun url =>
            match search_digits 8 url with
            | Some d => dt <- to_datetime w "%Y%m%d" d ;; Ok (Some dt)
            | None => Ok None
            end)
         all_links ;;
  Ok (map snd (groupby String.eqb String.ltb article_url all_links)).

(** [get_all_article_links], lines 353-402 *)
Definition get_all_article_links (w : World)
    (records : list (string * string)) : result (list (list string)) :=
  results <- map_results (_do_get_article_links w) records ;;
  let all_links := extend_links results [] in
  aggregate_links w all_links.

(** Lines 428-431: [if result: all_articles.append(result)] *)
Fixpoint append_articles (results : list (option ArticleData))
    (all_articles : list ArticleData) : list ArticleData :=
  match results with
  | [] => all_articles
  | Some result :: rest => append_articles rest (all_articles ++ [result])%list
  | None :: rest => append_articles rest all_articles
  end.

(** Lines 420-436, over any article extractor *)
Definition download_articles
    (process : list string -> result (option ArticleData))
    (article_links : list (list string)) : result (list ArticleData) :=
  results <- map_results process article_links ;;
  Ok (append_articles results []).

(** [download], lines 404-436 *)
Definition download (w : World) (self : Scrapper) : result (list ArticleData) :=
  records <- get_all_records w self ;;
  article_links <- get_all_article_links w records ;;
  match article_links with
  | [] => Ok []
  | _ => download_articles (process_article_url w) article_links
  end.

(* ================================================================== *)
(** ** The specification's reading of three rules *)
(* ================================================================== *)

(** The article test as the specification words it: the text after the
    final ['-'] of the last path segment has more than three digits. *)
Definition is_article_spec (url : string) : bool :=
  let segment := rsplit1_last "/" url in
  match after_last "-" segment with
  | Some tail => (3 <? count_digits tail)%nat
  | None => false
  end.

(** The canonical key as the specification words it: both scheme prefixes
    are stripped. *)
Definition canonical_key_spec (url : string) : string :=
  remove "http://" (remove "https://" url).

Fixpoint all_digits (s : string) : bool :=
  match s with
  | EmptyString => true
  | String c s' => is_digit c && all_digits s'
  end.

(** The exclusion set as the specification words it: any one rule drops the
    keyword. *)
Definition keyword_excluded_spec (k : string) : bool :=
  (nonempty k && all_digits k)
  || startswith "LINK|" k
  || contains "WSJ" k
  || String.eqb k "SYND"
  || contains "factiva" k
  || contains "filter" k
  || contains "gfx-" k
  || contains "factset" k.

(** The keyword pipeline as the specification words it *)
Definition keywords_spec (source : string) : string * string :=
  let survivors :=
    map (remove "wsj")
        (filter (fun k => negb (keyword_excluded_spec k)) (split "," source)) in
  let survivors :=
    filter (fun x => negb (contains "factiva" (lower x)
                           || contains "filter" (lower x)))
           survivors in
  (join "," survivors, join "," (filter (contains "US:") survivors)).

(* ================================================================== *)
(** ** Sample inputs *)
(* ================================================================== *)

Definition sample_page : Response := mkResponse 200 "<html></html>".

(** An article whose only keyword source is the metadata entry
    [news_keywords], a single string. *)
Definition sample_article : Article :=
  {| title := "A title";
     meta_keywords := [];
     art_keywords := [];
     meta_data := fun k =>
       if String.eqb k "news_keywords"
       then Some (PyStr "wsj-markets,LINK|123,US:AAPL,factset-data")
       else if String.eqb k "article.id"
       then Some (PyStr "SB20250110")
       else None;
     meta_description := "";
     art_text := "Body";
     art_summary := "Summary";
     publish_date := None |}.

(** The same page with a publish date found by the parser *)
Definition dated_article : Article :=
  {| title := "A title";
     meta_keywords := [];
     art_keywords := [];
     meta_data := fun _ => None;
     meta_description := "";
     art_text := "Body";
     art_summary := "Summary";
     publish_date := Some (mkdatetime (mkdate 2025 1 10) 9 30 0) |}.

(** A world where every page is fetched and parsed to [article], the index
    answers [rows], sampling takes the first rows and sorting keeps the
    order. *)
Definition sample_world (article : Article) (rows : list (string * string))
  : World :=
  {| session_get := fun _ => Ok sample_page;
     response_json := fun _ => Ok rows;
     soup_hrefs := fun _ => [];
     set_to_list := nodup string_dec;
     parse_article := fun _ => Ok article;
     re_search := fun _ _ => false;
     to_datetime := fun _ s =>
       Ok (mkdatetime (mkdate (dec (substring 0 4 s)) (dec (substring 4 2 s))
                              (dec (substring 6 2 s)))
                      (dec (substring 8 2 s)) (dec (substring 10 2 s))
                      (dec (substring 12 2 s)));
     sort_values := fun _ _ l => l;
     df_sample := fun _ _ n l => firstn n l |}.

(** A world where no request succeeds *)
Definition offline_world : World :=
  {| session_get := fun _ => Raise RequestException;
     response_json := fun _ => Raise ValueError;
     soup_hrefs := fun _ => [];
     set_to_list := nodup string_dec;
     parse_article := fun _ => Raise OtherException;
     re_search := fun _ _ => false;
     to_datetime := fun _ _ => Raise ValueError;
     sort_values := fun _ _ l => l;
     df_sample := fun _ _ n l => firstn n l |}.

Definition sample_scrapper (n : Z) : Scrapper :=
  {| site := "www.marketwatch.com";
     start_date := mkdate 2025 1 10;
     end_date := mkdate 2025 1 10;
     topics := TOPICS;
     max_workers := 3;
     no_of_captures := n |}.


Definition archive_link_1 : string :=
  "https://web.archive.org/web/20250110123456/https://www.marketwatch.com/story/a-title-12345".

Definition archive_link_2 : string :=
  "https://web.archive.org/web/20250111093000/https://www.marketwatch.com/story/a-title-12345".

(** Three index rows: two captures of the home page on one day, under both
    schemes, and one on the next day *)
Definition sample_frame : list Row :=
  [ mkRow "20250110123456" "http://www.marketwatch.com/"
          (mkdatetime (mkdate 2025 1 10) 12 34 56);
    mkRow "20250110133456" "https://www.marketwatch.com"
          (mkdatetime (mkdate 2025 1 10) 13 34 56);
    mkRow "20250111093000" "https://www.marketwatch.com/"
          (mkdatetime (mkdate 2025 1 11) 9 30 0) ].


(** The [date] column of line 389 can be computed: every 8-digit run that
    [str.extract] finds parses as a date. *)
Definition date_column_ok (w : World) (all_links : list string) : Prop :=
  Forall (fun url =>
            match search_digits 8 url with
            | Some d => exists dt, to_datetime w "%Y%m%d" d = Ok dt
            | None => True
            end) all_links.


(** A world like [sample_world] where every fetched page holds one anchor,
    the first archive copy of the article. *)
Definition crawl_world (article : Article) (rows : list (string * string))
  : World :=
  let w := sample_world article rows in
  {| session_get := session_get w;
     response_json := response_json w;
     soup_hrefs := fun _ => [archive_link_1];
     set_to_list := set_to_list w;
     parse_article := parse_article w;
     re_search := re_search w;
     to_datetime := to_datetime w;
     sort_values := sort_values w;
     df_sample := df_sample w |}.

(** [list(set(l))] holds the elements of [l] and no other. *)
Definition set_to_list_ok (w : World) : Prop :=
  forall l x, In x (set_to_list w l) <-> In x l.


(** The text of four decimal digits *)
Definition four_digits (a b c d : nat) : string :=
  String (digit_char a) (String (digit_char b)
    (String (digit_char c) (String (digit_char d) EmptyString))).

(** A parsed page with no publish date and no metadata at all *)
Definition undated_article : Article :=
  {| title := "A title";
     meta_keywords := [];
     art_keywords := [];
     meta_data := fun _ => None;
     meta_description := "";
     art_text := "Body";
     art_summary := "Summary";
     publish_date := None |}.

(* ================================================================== *)
(** * Properties *)
(* ================================================================== *)

(** ** The model at work *)

Example is_article_archive_copy :
  is_article archive_link_1 = true.
Proof. reflexivity. Qed.

Example is_article_topic_page :
  is_article "https://web.archive.org/web/20250110123456/https://www.marketwatch.com/investing/technology" = false.
Proof. reflexivity. Qed.

Example clean_url_home_page :
  clean_url "http://www.marketwatch.com:80/" = "www.marketwatch.com:80"
  /\ clean_url "https://www.marketwatch.com/ a //b/" = "www.marketwatch.com/a/b".
Proof. split; reflexivity. Qed.

Example article_links_loop_filters :
  article_links_loop
    [ "#top";
      "/story/relative-link-12345";
      "https://www.marketwatch.com/video/clip-12345";
      "https://www.marketwatch.com/story/a-title-12345?mod=home";
      "https://www.marketwatch.com/investing/stocks" ] []
  = ["https://www.marketwatch.com/story/a-title-12345"].
Proof. vm_compute. reflexivity. Qed.

Example strptime_Ymd_checks_the_calendar :
  strptime_Ymd "20240229" = Ok (mkdate 2024 2 29)
  /\ strptime_Ymd "20250229" = Raise ValueError
  /\ strptime_Ymd "20251301" = Raise ValueError.
Proof. repeat split. Qed.

Example findall_digits8_eol_trailing :
  findall_digits8_eol "SB12345678901234" = ["78901234"]
  /\ findall_digits8_eol "20250110-x" = [].
Proof. split; reflexivity. Qed.

Example get_all_records_fans_out :
  get_all_records
    (sample_world sample_article
       [("timestamp", "original");
        ("20250110123456", "http://www.marketwatch.com/")])
    (mkScrapper "www.marketwatch.com" (mkdate 2025 1 10) (mkdate 2025 1 10)
                ["/markets"; "/latest-news"] 3 (-1))
  = Ok [("20250110123456", "http://www.marketwatch.com///markets");
        ("20250110123456", "http://www.marketwatch.com///latest-news")].
Proof. vm_compute. reflexivity. Qed.

(** ** Strings *)

Lemma prefix_cons a p b t :
  prefix (String a p) (String b t) = Ascii.eqb a b && prefix p t.
Proof.
  simpl. destruct (ascii_dec a b) as [->|Hne].
  - now rewrite Ascii.eqb_refl.
  - apply Ascii.eqb_neq in Hne. now rewrite Hne.
Qed.

Lemma prefix_nil_r p : p <> "" -> prefix p "" = false.
Proof. destruct p; [congruence | reflexivity]. Qed.

Lemma prefix_app p r : prefix p (p ++ r) = true.
Proof.
  induction p as [|a p IH]; [now destruct r|].
  cbn [append]. rewrite prefix_cons, Ascii.eqb_refl. exact IH.
Qed.

Lemma prefix_split p t : prefix p t = true -> t = p ++ drop (length p) t.
Proof.
  revert t. induction p as [|a p IH]; intros t H; [reflexivity|].
  destruct t as [|b t]; [discriminate|].
  rewrite prefix_cons in H. apply andb_true_iff in H as [Hab Hp].
  apply Ascii.eqb_eq in Hab as ->. cbn. f_equal. now apply IH.
Qed.

Lemma drop_app_length p r : drop (length p) (p ++ r) = r.
Proof. induction p; [now destruct r | assumption]. Qed.

Lemma app_assoc_s (a b c : string) : (a ++ b) ++ c = a ++ (b ++ c).
Proof. induction a; cbn; [reflexivity | now f_equal]. Qed.

Lemma app_nil_r_s (a : string) : a ++ "" = a.
Proof. induction a; cbn; [reflexivity | now f_equal]. Qed.

Lemma contains_cons sub c s :
  contains sub s = true -> contains sub (String c s) = true.
Proof. intros H. cbn [contains]. rewrite H. now destruct (prefix sub _). Qed.

Lemma contains_app_r sub p s :
  contains sub s = true -> contains sub (p ++ s) = true.
Proof.
  intros H. induction p; [exact H|]. cbn [append]. now apply contains_cons.
Qed.

Lemma contains_drop sub n s :
  contains sub (drop n s) = true -> contains sub s = true.
Proof.
  revert s. induction n as [|n IH]; intros s H; [now destruct s|].
  destruct s as [|c s]; [exact H|]. apply contains_cons, IH, H.
Qed.

Lemma contains_prefix sub s : prefix sub s = true -> contains sub s = true.
Proof. intros H. destruct s; cbn [contains]; now rewrite H. Qed.

Lemma contains_false_cons sub c s :
  contains sub (String c s) = false ->
  prefix sub (String c s) = false /\ contains sub s = false.
Proof.
  cbn [contains]. destruct (prefix sub (String c s)); [discriminate|tauto].
Qed.

Lemma after_last_none sep s :
  sep <> "" -> (after_last sep s = None <-> contains sep s = false).
Proof.
  intros Hsep. induction s as [|c s IH].
  - destruct sep; [congruence|]. cbn. tauto.
  - cbn [after_last contains].
    destruct (after_last sep s) as [r|].
    + split; [discriminate|].
      destruct (prefix sep (String c s)); [discriminate|].
      intros H. apply IH in H. discriminate.
    + destruct (prefix sep (String c s)); split; try discriminate; auto.
      * intros _. now apply IH.
Qed.

Lemma after_last_app_r sep p s r :
  after_last sep s = Some r -> after_last sep (p ++ s) = Some r.
Proof.
  intros H. induction p; [exact H|]. cbn [append after_last]. now rewrite IHp.
Qed.

(** The text after the right-most occurrence holds no occurrence. *)
Lemma after_last_clean sep s r :
  sep <> "" -> after_last sep s = Some r -> contains sep r = false.
Proof.
  intros Hsep. revert r. induction s as [|c s IH]; intros r H; [discriminate|].
  cbn [after_last] in H. destruct (after_last sep s) as [r'|] eqn:E.
  - injection H as <-. now apply IH.
  - destruct (prefix sep (String c s)); [|discriminate].
    injection H as <-. destruct sep as [|a sep]; [congruence|].
    cbn [length drop].
    apply after_last_none in E; [|assumption].
    destruct (contains (String a sep) (drop (length sep) s)) eqn:C; [|reflexivity].
    apply contains_drop in C. congruence.
Qed.

Lemma rsplit1_last_idem sep s :
  sep <> "" -> rsplit1_last sep (rsplit1_last sep s) = rsplit1_last sep s.
Proof.
  intros Hsep. unfold rsplit1_last at 2 3.
  destruct (after_last sep s) as [r|] eqn:E.
  - unfold rsplit1_last.
    apply after_last_clean in E; [|assumption].
    apply after_last_none in E; [|assumption]. now rewrite E.
  - unfold rsplit1_last. now rewrite E.
Qed.

(** A separator that cannot overlap a copy of itself and does not occur in
    [r]: its occurrence in front of [r] is the last one. *)
Lemma after_last_https r :
  contains "https://" r = false ->
  after_last "https://" ("https://" ++ r) = Some r.
Proof.
  intros H. apply after_last_none in H; [|discriminate].
  cbn. rewrite H. now destruct r.
Qed.

Lemma after_last_hyphen t :
  contains "-" t = false -> after_last "-" ("-" ++ t) = Some t.
Proof.
  intros H. apply after_last_none in H; [|discriminate].
  cbn. rewrite H. now destruct t.
Qed.

Lemma rsplit1_last_wrapped p r :
  contains "https://" r = false ->
  rsplit1_last "https://" (p ++ "https://" ++ r) = r.
Proof.
  intros H. unfold rsplit1_last.
  now rewrite (after_last_app_r _ p _ r (after_last_https r H)).
Qed.

Lemma after_last_decompose sep s r :
  after_last sep s = Some r -> exists stem, s = stem ++ sep ++ r.
Proof.
  revert r. induction s as [|c s IH]; intros r H; [discriminate|].
  cbn [after_last] in H. destruct (after_last sep s) as [r'|].
  - injection H as <-. destruct (IH r' eq_refl) as [stem ->].
    now exists (String c stem).
  - destruct (prefix sep (String c s)) eqn:P; [|discriminate].
    injection H as <-. exists "". cbn [append]. now apply prefix_split.
Qed.

Lemma contains_after_last x sep s r :
  after_last sep s = Some r -> contains x r = true -> contains x s = true.
Proof.
  intros H C. apply after_last_decompose in H as [stem ->].
  now apply contains_app_r, contains_app_r.
Qed.

Lemma prefix_drop_app p u c t :
  char_in c p = false ->
  prefix p (u ++ String c t) = true ->
  drop (length p) (u ++ String c t) = drop (length p) u ++ String c t.
Proof.
  revert u. induction p as [|a p IH]; intros u Hc H; [now destruct u|].
  cbn [char_in] in Hc. apply orb_false_iff in Hc as [Hca Hcp].
  destruct u as [|b u].
  - cbn [append] in H. rewrite prefix_cons in H.
    apply andb_true_iff in H as [Hab _].
    rewrite Ascii.eqb_sym in Hab. congruence.
  - cbn [append] in H. rewrite prefix_cons in H.
    apply andb_true_iff in H as [_ H]. cbn. now apply IH.
Qed.

Lemma after_last_keeps_tail sep u c t r :
  char_in c sep = false ->
  contains sep t = false ->
  after_last sep (u ++ String c t) = Some r ->
  exists stem, r = stem ++ String c t.
Proof.
  intros Hc Ht. destruct sep as [|a sep]; [now destruct t|].
  apply after_last_none in Ht; [|discriminate].
  revert r. induction u as [|b u IH]; intros r H.
  - cbn [append after_last] in H. rewrite Ht in H.
    rewrite prefix_cons in H. cbn [char_in] in Hc.
    apply orb_false_iff in Hc as [Hca _]. rewrite Ascii.eqb_sym in Hca.
    rewrite Hca in H. discriminate.
  - cbn [append after_last] in H.
    destruct (after_last (String a sep) (u ++ String c t)) as [r'|].
    + injection H as <-. now apply IH.
    + destruct (prefix (String a sep) (String b (u ++ String c t))) eqn:P;
        [|discriminate].
      injection H as <-.
      change (String b (u ++ String c t)) with (String b u ++ String c t) in P.
      change (drop (length sep) (u ++ String c t))
        with (drop (length (String a sep)) (String b u ++ String c t)).
      rewrite prefix_drop_app by assumption. eauto.
Qed.

Lemma article_url_keeps_tail u t :
  contains "https://" t = false ->
  exists stem, article_url (u ++ "-" ++ t) = stem ++ "-" ++ t.
Proof.
  intros Ht. unfold article_url, rsplit1_last.
  destruct (after_last "https://" (u ++ "-" ++ t)) as [r|] eqn:E.
  - eapply after_last_keeps_tail in E; [exact E | reflexivity | assumption].
  - now exists u.
Qed.

Lemma is_article_of_stem_tail url stem tail :
  article_url url = stem ++ "-" ++ tail ->
  contains "-" tail = false ->
  is_article url = (3 <? count_digits tail)%nat.
Proof.
  intros Hu Ht. unfold is_article. fold (article_url url). rewrite Hu.
  assert (A : after_last "-" (stem ++ "-" ++ tail) = Some tail)
    by now apply after_last_app_r, after_last_hyphen.
  assert (C : contains "-" (stem ++ "-" ++ tail) = true).
  { destruct (contains "-" (stem ++ "-" ++ tail)) eqn:C; [reflexivity|].
    apply after_last_none in C; [congruence | discriminate]. }
  rewrite C. cbn [negb]. unfold rsplit1_last. now rewrite A.
Qed.

Lemma is_article_tail u t :
  contains "-" t = false ->
  contains "https://" t = false ->
  is_article (u ++ "-" ++ t) = (3 <? count_digits t)%nat.
Proof.
  intros Hh Hs. destruct (article_url_keeps_tail u t Hs) as [stem E].
  eapply is_article_of_stem_tail; eassumption.
Qed.

Lemma is_article_no_hyphen url :
  contains "-" (article_url url) = false -> is_article url = false.
Proof. intros H. unfold is_article. fold (article_url url). now rewrite H. Qed.

Lemma is_article_few_digits u t :
  contains "-" t = false ->
  (count_digits t <= 3)%nat ->
  is_article (u ++ "-" ++ t) = false.
Proof.
  intros Hh Hc. destruct (contains "https://" t) eqn:Hs.
  - apply is_article_no_hyphen. unfold article_url, rsplit1_last.
    destruct (after_last "https://" t) as [r|] eqn:E.
    + rewrite (after_last_app_r _ u _ r
                 (after_last_app_r _ "-" _ r E)).
      destruct (contains "-" r) eqn:C; [|reflexivity].
      pose proof (contains_after_last _ _ _ _ E C). congruence.
    + apply after_last_none in E; [congruence | discriminate].
  - rewrite is_article_tail by assumption. now apply Nat.ltb_ge.
Qed.

(** ** The article test *)

(** C5, as the specification states it, fails: the address below has a last
    path segment [b] with no hyphen and no digit, so the specification's
    test rejects it, while [is_article] reads the text after the last hyphen
    of the whole address, [2024/b], finds four digits and accepts it. *)
Lemma is_article_not_last_segment :
  is_article "https://www.marketwatch.com/a-2024/b" = true
  /\ rsplit1_last "/" "https://www.marketwatch.com/a-2024/b" = "b"
  /\ is_article_spec "https://www.marketwatch.com/a-2024/b" = false
  /\ ~ (forall url, is_article url = is_article_spec url).
Proof.
  repeat split; try reflexivity.
  intros H. specialize (H "https://www.marketwatch.com/a-2024/b").
  discriminate H.
Qed.

(** C5, amended: [is_article] accepts a URL exactly when the text after its
    last [https://] has a hyphen and the text after the last hyphen of that
    whole text (path separators included) holds more than three digits. A
    URL ending in [-12345] is an article, one ending in [-12] is not, and
    neither is one with exactly three digits after its last hyphen. *)
Theorem is_article_characterisation :
  (forall url,
      is_article url = true <->
      exists stem tail,
        article_url url = stem ++ "-" ++ tail
        /\ contains "-" tail = false
        /\ (3 < count_digits tail)%nat)
  /\ (forall u, is_article (u ++ "-12345") = true)
  /\ (forall u, is_article (u ++ "-12") = false)
  /\ (forall u tail,
         contains "-" tail = false ->
         count_digits tail = 3%nat ->
         is_article (u ++ "-" ++ tail) = false).
Proof.
  split; [|split; [|split]].
  - intros url. split.
    + intros H. unfold is_article in H. fold (article_url url) in H.
      destruct (contains "-" (article_url url)) eqn:C; [|discriminate].
      cbn [negb] in H. unfold rsplit1_last in H.
      destruct (after_last "-" (article_url url)) as [tail|] eqn:E.
      * destruct (after_last_decompose _ _ _ E) as [stem Hs].
        exists stem, tail. split; [exact Hs|]. split.
        -- eapply after_last_clean; [discriminate | exact E].
        -- now apply Nat.ltb_lt.
      * apply after_last_none in E; [congruence | discriminate].
    + intros (stem & tail & Hu & Ht & Hc).
      rewrite (is_article_of_stem_tail _ _ _ Hu Ht). now apply Nat.ltb_lt.
  - intros u. change "-12345" with ("-" ++ "12345").
    now rewrite is_article_tail.
  - intros u. change "-12" with ("-" ++ "12").
    now rewrite is_article_tail.
  - intros u tail Ht Hc. apply is_article_few_digits; [assumption | lia].
Qed.

Lemma is_article_characterisation_witness :
  contains "-" "123" = false
  /\ count_digits "123" = 3%nat
  /\ is_article ("https://www.marketwatch.com/story/a-title" ++ "-" ++ "123")
     = false.
Proof.
  split; [reflexivity | split; [reflexivity|]].
  apply (proj2 (proj2 (proj2 is_article_characterisation))); reflexivity.
Defined.

(** C10: for a URL [p ++ "https://" ++ r] where [r] holds no further
    [https://], [is_article] gives what it gives on ["https://" ++ r]; the
    answer is read off [r] alone, so the digits of the wrapper [p] (the
    14-digit capture timestamp) never count. *)
Theorem is_article_archive_wrapping (p r : string) :
  contains "https://" r = false ->
  is_article (p ++ "https://" ++ r) = is_article ("https://" ++ r)
  /\ is_article (p ++ "https://" ++ r)
     = (contains "-" r && (3 <? count_digits (rsplit1_last "-" r))%nat).
Proof.
  intros H.
  assert (E : forall q, is_article (q ++ "https://" ++ r)
                = (contains "-" r && (3 <? count_digits (rsplit1_last "-" r))%nat)).
  { intros q. unfold is_article. rewrite rsplit1_last_wrapped by assumption.
    now destruct (contains "-" r). }
  split; [|apply E]. rewrite (E p). symmetry. apply (E "").
Qed.

Lemma is_article_archive_wrapping_witness :
  contains "https://" "www.marketwatch.com/story/a-title-12" = false
  /\ is_article ("https://web.archive.org/web/20250110123456/" ++ "https://"
                 ++ "www.marketwatch.com/story/a-title-12")
     = is_article ("https://" ++ "www.marketwatch.com/story/a-title-12").
Proof.
  split; [reflexivity|].
  apply (is_article_archive_wrapping
           "https://web.archive.org/web/20250110123456/"
           "www.marketwatch.com/story/a-title-12").
  reflexivity.
Defined.

(** ** Canonical keys *)

Lemma char_in_app c a b : char_in c (a ++ b) = char_in c a || char_in c b.
Proof.
  induction a as [|d a IH]; [reflexivity|].
  cbn [append char_in]. rewrite IH. now rewrite orb_assoc.
Qed.

Lemma split_from_no_sep sep cur s :
  char_in sep cur = false ->
  Forall (fun seg => char_in sep seg = false) (split_from sep cur s).
Proof.
  revert cur. induction s as [|c s IH]; intros cur Hcur; cbn [split_from].
  - now constructor.
  - destruct (Ascii.eqb c sep) eqn:E.
    + constructor; [assumption|]. now apply IH.
    + apply IH. rewrite char_in_app, Hcur. cbn.
      rewrite Ascii.eqb_sym, E. reflexivity.
Qed.

Lemma split_from_app_no_sep sep cur x s :
  char_in sep x = false ->
  split_from sep cur (x ++ s) = split_from sep (cur ++ x) s.
Proof.
  revert cur. induction x as [|c x IH]; intros cur H.
  - now rewrite app_nil_r_s.
  - cbn [char_in] in H. apply orb_false_iff in H as [Hc Hx].
    cbn [append split_from]. rewrite Ascii.eqb_sym, Hc.
    rewrite IH by assumption. now rewrite app_assoc_s.
Qed.

Lemma split_join sep segs :
  segs <> [] ->
  Forall (fun seg => char_in sep seg = false) segs ->
  split sep (join (String sep "") segs) = segs.
Proof.
  intros Hne H. unfold split, join.
  induction H as [|x segs Hx Hsegs IH]; [congruence|].
  destruct segs as [|y segs].
  - cbn [concat]. rewrite <- (app_nil_r_s x) at 1.
    now rewrite split_from_app_no_sep.
  - change (concat (String sep "") (x :: y :: segs))
      with (x ++ String sep (concat (String sep "") (y :: segs))).
    rewrite split_from_app_no_sep by assumption.
    cbn [split_from append]. rewrite Ascii.eqb_refl.
    f_equal. apply IH. discriminate.
Qed.

Lemma char_in_lstrip c s : char_in c (lstrip s) = true -> char_in c s = true.
Proof.
  induction s as [|d s IH]; [trivial|]. cbn [lstrip].
  destruct (is_space d); [|trivial].
  intros H. cbn [char_in]. rewrite (IH H). apply orb_true_r.
Qed.

Lemma char_in_rstrip c s : char_in c (rstrip s) = true -> char_in c s = true.
Proof.
  induction s as [|d s IH]; [trivial|]. cbn [rstrip char_in].
  destruct (rstrip s) as [|e r].
  - destruct (is_space d); [discriminate|]. cbn [char_in].
    rewrite orb_false_r. intros ->. reflexivity.
  - cbn [char_in] in *. destruct (Ascii.eqb c d); [reflexivity|].
    cbn [orb]. exact IH.
Qed.

Lemma char_in_strip c s : char_in c s = false -> char_in c (strip s) = false.
Proof.
  intros H. destruct (char_in c (strip s)) eqn:E; [|reflexivity].
  apply char_in_rstrip, char_in_lstrip in E. congruence.
Qed.

Lemma lstrip_no_lead s : no_lead (lstrip s).
Proof.
  induction s as [|c s IH]; [exact I|]. cbn [lstrip].
  destruct (is_space c) eqn:E; [exact IH | exact E].
Qed.

Lemma no_lead_lstrip s : no_lead s -> lstrip s = s.
Proof. destruct s as [|c s]; [trivial|]. cbn. now intros ->. Qed.

Lemma no_lead_rstrip s : no_lead s -> no_lead (rstrip s).
Proof.
  destruct s as [|c s]; [trivial|]. cbn [no_lead rstrip]. intros H.
  destruct (rstrip s); [rewrite H|]; exact H.
Qed.

Lemma rstrip_idem s : rstrip (rstrip s) = rstrip s.
Proof.
  induction s as [|c s IH]; [reflexivity|]. cbn [rstrip].
  destruct (rstrip s) as [|d r] eqn:E.
  - destruct (is_space c) eqn:Ec; [reflexivity|]. cbn. now rewrite Ec.
  - cbn [rstrip]. cbn [rstrip] in IH. now rewrite IH.
Qed.

Lemma strip_idem s : strip (strip s) = strip s.
Proof.
  unfold strip.
  rewrite (no_lead_lstrip (rstrip (lstrip s)))
    by apply no_lead_rstrip, lstrip_no_lead.
  apply rstrip_idem.
Qed.

Lemma remove_absent old s :
  contains old s = false -> remove old s = s.
Proof.
  unfold remove. induction s as [|c s IH]; [reflexivity|].
  intros H. apply contains_false_cons in H as [P C].
  cbn [remove_from]. rewrite P. now rewrite IH.
Qed.

Lemma contains_dslash_of_prefix p s :
  contains "//" p = true -> prefix p s = true -> contains "//" s = true.
Proof.
  intros Hp H. rewrite (prefix_split _ _ H).
  revert Hp. generalize (drop (length p) s) as r. clear H s.
  induction p as [|c p IH]; intros r Hp; [discriminate|].
  cbn [contains] in Hp. cbn [append contains].
  destruct (prefix "//" (String c p)) eqn:P.
  - assert (prefix "//" (String c (p ++ r)) = true) as ->; [|reflexivity].
    destruct p as [|d p].
    { rewrite prefix_cons in P. cbn [prefix] in P.
      rewrite andb_false_r in P. discriminate. }
    cbn [append]. rewrite !prefix_cons in *.
    apply andb_true_iff in P as [-> P]. apply andb_true_iff in P as [-> _].
    destruct (p ++ r); reflexivity.
  - rewrite (IH r Hp). destruct (prefix "//" (String c (p ++ r))); reflexivity.
Qed.

Lemma contains_scheme_dslash old s :
  contains "//" old = true -> contains "//" s = false -> contains old s = false.
Proof.
  intros Hold. induction s as [|c s IH]; intros H.
  - destruct old; [discriminate | reflexivity].
  - destruct (contains_false_cons _ _ _ H) as [_ C].
    cbn [contains]. destruct (prefix old (String c s)) eqn:P.
    + pose proof (contains_dslash_of_prefix _ _ Hold P). congruence.
    + now apply IH.
Qed.

Lemma no_slash_no_dslash x Y :
  char_in "/" x = false ->
  contains "//" (x ++ String "/" Y) = (prefix "/" Y || contains "//" Y).
Proof.
  intros H. induction x as [|c x IH].
  - cbn [append contains]. rewrite prefix_cons. cbn [Ascii.eqb Bool.eqb andb].
    now destruct (prefix "/" Y).
  - cbn [char_in] in H. apply orb_false_iff in H as [Hc Hx].
    cbn [append contains]. rewrite prefix_cons, Hc. cbn [andb].
    now apply IH.
Qed.

Lemma no_slash_contains x : char_in "/" x = false -> contains "//" x = false.
Proof.
  induction x as [|c x IH]; [reflexivity|]. cbn [char_in]. intros H.
  apply orb_false_iff in H as [Hc Hx].
  cbn [contains]. rewrite prefix_cons, Hc. cbn [andb]. now apply IH.
Qed.

Lemma good_segment_prefix x r : good_segment x -> prefix "/" (x ++ r) = false.
Proof.
  intros (Hn & Hs & _). destruct x as [|c x]; [discriminate|].
  cbn [char_in] in Hs. apply orb_false_iff in Hs as [Hc _].
  cbn [append]. rewrite prefix_cons, Hc. reflexivity.
Qed.

Lemma join_no_dslash segs :
  Forall good_segment segs ->
  contains "//" (join "/" segs) = false /\ prefix "/" (join "/" segs) = false.
Proof.
  unfold join. induction 1 as [|x segs Hx Hsegs [IHc IHp]]; [now split|].
  destruct segs as [|y segs].
  - cbn [concat]. split.
    + apply no_slash_contains, Hx.
    + rewrite <- (app_nil_r_s x). now apply good_segment_prefix.
  - change (concat "/" (x :: y :: segs))
      with (x ++ String "/" (concat "/" (y :: segs))).
    split.
    + rewrite no_slash_no_dslash by apply Hx. now rewrite IHc, IHp.
    + now apply good_segment_prefix.
Qed.

Lemma clean_url_fixed segs :
  Forall good_segment segs -> clean_url (join "/" segs) = join "/" segs.
Proof.
  intros H. unfold clean_url.
  destruct (join_no_dslash segs H) as [Hc _].
  rewrite (remove_absent "http://")
    by (apply contains_scheme_dslash; [reflexivity | exact Hc]).
  rewrite (remove_absent "https://")
    by (apply contains_scheme_dslash; [reflexivity | exact Hc]).
  destruct segs as [|x segs]; [reflexivity|].
  rewrite split_join;
    [| discriminate
     | eapply Forall_impl; [|exact H]; intros seg Hseg; apply Hseg].
  f_equal. clear Hc. revert H. generalize (x :: segs) as l.
  induction 1 as [|y l Hy Hl IH]; [reflexivity|].
  destruct Hy as (Hn & _ & Hs).
  cbn [filter]. rewrite Hs, Hn. cbn [map]. rewrite Hs. now f_equal.
Qed.

Lemma clean_url_segments x :
  exists segs, clean_url x = join "/" segs /\ Forall good_segment segs.
Proof.
  unfold clean_url.
  pose proof (split_from_no_sep "/" "" (remove "https://" (remove "http://" x))
                eq_refl) as H.
  fold (split "/" (remove "https://" (remove "http://" x))) in H.
  revert H. generalize (split "/" (remove "https://" (remove "http://" x))).
  intros l H. eexists. split; [reflexivity|].
  induction H as [|seg l Hseg Hl IH]; [constructor|].
  cbn [filter]. destruct (nonempty (strip seg)) eqn:N; [|exact IH].
  cbn [map]. constructor; [|exact IH].
  split; [exact N|]. split; [now apply char_in_strip | apply strip_idem].
Qed.

(** C9: canonical-key computation is idempotent, for the key of the link
    aggregation (the text after the last [https://]) and for the key of the
    record sampling (both schemes removed, the path segments stripped and
    joined again). *)
Theorem canonical_key_idempotent (u : string) :
  article_url (article_url u) = article_url u
  /\ clean_url (clean_url u) = clean_url u.
Proof.
  split.
  - apply rsplit1_last_idem. discriminate.
  - destruct (clean_url_segments u) as (segs & -> & H).
    now apply clean_url_fixed.
Qed.

(** ** Article extraction *)

Lemma keywords_stage_raises w article :
  keywords_stage w article = Raise TypeError.
Proof. reflexivity. Qed.

Lemma variant_body_never_returns w url article_data :
  variant_body w url <> Ok (Return article_data).
Proof.
  unfold variant_body.
  destruct (safe_get w url) as [[response|]|e]; cbn [bind]; try discriminate.
  destruct (negb (status_code response =? 200)%nat); [discriminate|].
  destruct (parse_article w (text response)) as [article|e]; cbn [bind];
    [|discriminate].
  rewrite keywords_stage_raises. discriminate.
Qed.


Lemma process_loop_all_fail body urls :
  Forall (fun u => forall a, body u <> Ok (Return a)) urls ->
  process_loop body urls = Ok None.
Proof.
  induction 1 as [|url rest Hu Hrest IH]; [reflexivity|].
  cbn [process_loop].
  destruct (body url) as [[|article_data]|e]; cbn; try exact IH.
  now destruct (Hu article_data).
Qed.


Lemma process_article_url_none w urls : process_article_url w urls = Ok None.
Proof.
  apply process_loop_all_fail, Forall_forall. intros u _ a.
  apply variant_body_never_returns.
Qed.

Lemma append_articles_acc results acc :
  append_articles results acc
  = (acc ++ flat_map (fun r => match r with Some a => [a] | None => [] end)
                     results)%list.
Proof.
  revert acc. induction results as [|[a|] rest IH]; intros acc; cbn.
  - now rewrite app_nil_r.
  - rewrite IH, <- app_assoc. reflexivity.
  - apply IH.
Qed.

Lemma download_articles_collects process groups :
  (forall g, exists r, process g = Ok r) ->
  download_articles process groups
  = Ok (flat_map (fun g => match process g with
                           | Ok (Some a) => [a]
                           | _ => []
                           end) groups).
Proof.
  intros Htotal. unfold download_articles.
  assert (M : map_results process groups
              = Ok (map (fun g => match process g with
                                  | Ok r => r
                                  | Raise _ => None
                                  end) groups)).
  { induction groups as [|g rest IH]; [reflexivity|].
    cbn [map_results map]. destruct (Htotal g) as [r ->]. cbn [bind].
    now rewrite IH. }
  rewrite M. cbn [bind]. rewrite append_articles_acc. cbn [app]. f_equal.
  clear M. induction groups as [|g rest IH]; [reflexivity|].
  cbn [map flat_map]. rewrite IH.
  destruct (Htotal g) as [[a|] ->]; reflexivity.
Qed.

Lemma date_stage_publish_date article d :
  publish_date article = Some d -> date_stage article = Ok None.
Proof. intros H. unfold date_stage. now rewrite H. Qed.


(** C1, the failing input: a page fetched with status 200 and parsed, whose
    first non-empty keyword source is the metadata string of the scenario.
    [re.compile] is given a list and raises [TypeError]; the exception is
    caught by the loop, and [process_article_url] returns [None], not a
    record with [keywords == "-markets,US:AAPL"]. The rule set of the
    specification, read as independent patterns, gives the stated values. *)
Theorem keyword_scenario_returns_none :
  py_or (py_or (py_or (PyList (meta_keywords sample_article))
                      (PyList (art_keywords sample_article)))
               (md_getitem sample_article "news_keywords"))
        (md_getitem sample_article "keywords")
  = PyStr "wsj-markets,LINK|123,US:AAPL,factset-data"
  /\ re_compile excluded_keyword_patterns = Raise TypeError
  /\ keywords_stage (sample_world sample_article []) sample_article
     = Raise TypeError
  /\ process_article_url (sample_world sample_article []) [archive_link_1]
     = Ok None
  /\ keywords_spec "wsj-markets,LINK|123,US:AAPL,factset-data"
     = ("-markets,US:AAPL", "US:AAPL").
Proof. repeat split. Qed.

(** C2, the failing input: a page for which the parser found the publish
    date 2025-01-10. The value bound to [date] is then not a string, the
    [else] branch of line 262 replaces it by [None], and the date field is
    the empty text, not [2025-01-10]; the record itself is never returned
    (see C1). The fall-back on [article.id] does give the ISO date. *)
Theorem publish_date_not_stored :
  publish_date dated_article = Some (mkdatetime (mkdate 2025 1 10) 9 30 0)
  /\ date_stage dated_article = Ok None
  /\ date_text None = ""
  /\ process_article_url (sample_world dated_article []) [archive_link_1]
     = Ok None
  /\ date_stage sample_article = Ok (Some (mkdate 2025 1 10))
  /\ date_text (Some (mkdate 2025 1 10)) = "2025-01-10".
Proof. repeat split. Qed.





(** ** The crawl over an empty index *)

Lemma get_all_article_links_nil w : get_all_article_links w [] = Ok [].
Proof. reflexivity. Qed.



(** ** Grouping *)

Section GroupByFacts.
Context {A K : Type}.
Variable keqb : K -> K -> bool.
Variable kltb : K -> K -> bool.
Variable key : A -> K.
Hypothesis keqb_spec : forall a b, keqb a b = true <-> a = b.

Local Abbreviation add := (@add_to_group A K keqb).

Lemma keqb_refl k : keqb k k = true.
Proof. now apply keqb_spec. Qed.

Lemma add_keys k x gs k' :
  In k' (map fst (add k x gs)) <-> k' = k \/ In k' (map fst gs).
Proof.
  induction gs as [|[k0 xs] rest IH]; cbn [add_to_group map fst In].
  - intuition congruence.
  - destruct (keqb k k0) eqn:E; cbn [map fst In].
    + apply keqb_spec in E. subst. intuition congruence.
    + rewrite IH. intuition congruence.
Qed.

Lemma add_nodup k x gs :
  NoDup (map fst gs) -> NoDup (map fst (add k x gs)).
Proof.
  induction gs as [|[k0 xs] rest IH]; cbn [add_to_group map fst]; intros H.
  - repeat constructor. intros [].
  - inversion H as [|? ? Hnotin Hrest]; subst.
    destruct (keqb k k0) eqn:E; cbn [map fst]; [assumption|].
    constructor; [|now apply IH].
    rewrite add_keys. intros [->|Hin]; [|contradiction].
    rewrite keqb_refl in E. discriminate.
Qed.

Lemma add_members k x gs k' xs' :
  NoDup (map fst gs) ->
  In (k', xs') (add k x gs) ->
  (k' <> k /\ In (k', xs') gs)
  \/ (k' = k /\ exists xs, xs' = (xs ++ [x])%list
                          /\ (In (k, xs) gs
                              \/ (xs = [] /\ ~ In k (map fst gs)))).
Proof.
  induction gs as [|[k0 xs] rest IH]; cbn [add_to_group map fst In];
    intros Hnd Hin.
  - destruct Hin as [Hin|[]]. injection Hin as <- <-.
    right. split; [reflexivity|]. exists []. split; [reflexivity|].
    right. split; [reflexivity | tauto].
  - inversion Hnd as [|? ? Hnotin Hrest]; subst.
    destruct (keqb k k0) eqn:E.
    + apply keqb_spec in E. subst k0.
      destruct Hin as [Hin|Hin].
      * injection Hin as <- <-. right. split; [reflexivity|].
        exists xs. split; [reflexivity|]. left. now left.
      * left. split; [|now right].
        intros ->. apply Hnotin. now apply (in_map fst) in Hin.
    + assert (Hne : k0 <> k).
      { intros ->. rewrite keqb_refl in E. discriminate. }
      destruct Hin as [Hin|Hin].
      * injection Hin as <- <-. left. split; [assumption | now left].
      * destruct (IH Hrest Hin) as [[Hk Hin']|[-> (ys & -> & Hys)]].
        -- left. split; [assumption | now right].
        -- right. split; [reflexivity|]. exists ys. split; [reflexivity|].
           destruct Hys as [Hys|[-> Hys]]; [left; now right|].
           right. split; [reflexivity|]. intros [Heq|Hin']; auto.
Qed.

Lemma add_flat k x gs :
  Permutation (flat_map snd (add k x gs)) (x :: flat_map snd gs).
Proof.
  induction gs as [|[k0 xs] rest IH]; cbn [add_to_group flat_map snd].
  - reflexivity.
  - destruct (keqb k k0); cbn [flat_map snd].
    + rewrite <- app_assoc. cbn [app]. symmetry. apply Permutation_middle.
    + rewrite IH. symmetry. apply Permutation_middle.
Qed.

Lemma add_groups_of gs seen x :
  groups_of keqb key gs seen ->
  groups_of keqb key (add (key x) x gs) (seen ++ [x]).
Proof.
  intros (Hnd & Hcontent & Hmem & Hperm). repeat apply conj.
  - now apply add_nodup.
  - intros k xs Hin. rewrite filter_app. cbn [filter].
    destruct (add_members _ _ _ _ _ Hnd Hin)
      as [[Hne Hin']|[-> (ys & -> & Hys)]].
    + destruct (keqb (key x) k) eqn:E.
      * apply keqb_spec in E. congruence.
      * rewrite app_nil_r. now apply Hcontent.
    + rewrite keqb_refl. split; [|now destruct ys]. f_equal.
      destruct Hys as [Hys|[-> Hys]]; [now apply Hcontent|].
      symmetry.
      assert (Hno : forall y, In y seen -> key y <> key x).
      { intros y Hy Heq. apply Hys. rewrite <- Heq. now apply Hmem. }
      clear - Hno keqb_spec.
      induction seen as [|y l IH]; [reflexivity|].
      cbn [filter]. destruct (keqb (key y) (key x)) eqn:E.
      * apply keqb_spec in E. exfalso. apply (Hno y); [now left | exact E].
      * apply IH. intros z Hz. apply Hno. now right.
  - intros y Hy. rewrite add_keys. apply in_app_or in Hy as [Hy|[<-|[]]].
    + right. now apply Hmem.
    + now left.
  - rewrite add_flat, Hperm. apply Permutation_cons_append.
Qed.

Lemma collect_groups_of rows :
  groups_of keqb key (collect_groups keqb key rows) rows.
Proof.
  unfold collect_groups.
  assert (G : forall gs seen,
             groups_of keqb key gs seen ->
             groups_of keqb key (fold_left (fun groups x => add (key x) x groups)
                                  rows gs)
                       (seen ++ rows)).
  { induction rows as [|x rows IH]; intros gs seen H; cbn [fold_left].
    - now rewrite app_nil_r.
    - replace (seen ++ x :: rows)%list with ((seen ++ [x]) ++ rows)%list
        by (now rewrite <- app_assoc).
      apply IH. now apply add_groups_of. }
  apply (G [] []). repeat apply conj; try constructor; intros; contradiction.
Qed.

Lemma insert_by_key_perm (g : K * list A) gs :
  Permutation (insert_by_key kltb g gs) (g :: gs).
Proof.
  induction gs as [|g' rest IH]; cbn [insert_by_key]; [reflexivity|].
  destruct (kltb (fst g) (fst g')); [reflexivity|].
  rewrite IH. apply perm_swap.
Qed.

Lemma sort_groups_perm (gs : list (K * list A)) :
  Permutation (sort_groups kltb gs) gs.
Proof.
  induction gs as [|g rest IH]; cbn; [reflexivity|].
  rewrite insert_by_key_perm. now constructor.
Qed.

Lemma groupby_groups_of rows :
  groups_of keqb key (groupby keqb kltb key rows) rows.
Proof.
  destruct (collect_groups_of rows) as (Hnd & Hcontent & Hmem & Hperm).
  pose proof (sort_groups_perm (collect_groups keqb key rows)) as P.
  unfold groupby. repeat apply conj.
  - eapply Permutation_NoDup; [|exact Hnd].
    symmetry. now apply Permutation_map.
  - intros k xs Hin. apply Hcontent. eapply Permutation_in; eassumption.
  - intros y Hy. eapply Permutation_in; [|apply Hmem, Hy].
    symmetry. now apply Permutation_map.
  - eapply Permutation_trans; [|exact Hperm].
    now apply Permutation_flat_map.
Qed.

Lemma groups_distinct gs seen :
  groups_of keqb key gs seen -> NoDup (map snd gs).
Proof.
  intros (Hnd & Hcontent & _ & _).
  assert (Hinj : forall k1 k2 xs,
             In (k1, xs) gs -> In (k2, xs) gs -> k1 = k2).
  { intros k1 k2 xs H1 H2.
    destruct (Hcontent _ _ H1) as [E1 Hne], (Hcontent _ _ H2) as [E2 _].
    destruct xs as [|y xs]; [congruence|].
    assert (I1 : In y (filter (fun y => keqb (key y) k1) seen))
      by (rewrite <- E1; now left).
    assert (I2 : In y (filter (fun y => keqb (key y) k2) seen))
      by (rewrite <- E2; now left).
    apply filter_In in I1 as [_ I1], I2 as [_ I2].
    apply keqb_spec in I1, I2. congruence. }
  clear Hcontent. induction gs as [|[k xs] rest IH]; cbn [map snd].
  - constructor.
  - inversion Hnd as [|? ? Hnotin Hrest]; subst. constructor.
    + intros Hin. apply in_map_iff in Hin as ([k' xs'] & Heq & Hin).
      cbn [snd] in Heq. subst xs'.
      apply Hnotin. rewrite (Hinj k k' xs); [| now left | now right].
      now apply (in_map fst) in Hin.
    + apply IH; [assumption|].
      intros k1 k2 ys H1 H2. apply (Hinj k1 k2 ys); now right.
Qed.
End GroupByFacts.

(** ** Link aggregation *)

Lemma date_column_computes w all_links :
  date_column_ok w all_links ->
  exists dates,
    map_results
      (fun url =>
         match search_digits 8 url with
         | Some d => dt <- to_datetime w "%Y%m%d" d ;; Ok (Some dt)
         | None => Ok None
         end) all_links = Ok dates.
Proof.
  induction 1 as [|url rest Hurl Hrest [dates IH]]; [now exists []|].
  cbn [map_results]. rewrite IH.
  destruct (search_digits 8 url) as [d|].
  - destruct Hurl as [dt ->]. cbn. eauto.
  - cbn. eauto.
Qed.

Lemma aggregate_links_ok w all_links :
  date_column_ok w all_links ->
  aggregate_links w all_links
  = Ok (map snd (groupby String.eqb String.ltb article_url all_links)).
Proof.
  intros H. unfold aggregate_links.
  destruct (date_column_computes w all_links H) as [dates ->]. reflexivity.
Qed.

(** C3, as the specification states it, fails: the two URLs of the
    specification's example differ only in scheme, yet their keys differ
    (only the text up to the last [https://] is cut) and the aggregation
    gives two groups of one variant each. *)
Lemma scheme_variants_not_merged :
  canonical_key_spec "http://site/a/story-123456"
  = canonical_key_spec "https://site/a/story-123456"
  /\ article_url "http://site/a/story-123456"
     <> article_url "https://site/a/story-123456"
  /\ aggregate_links (sample_world sample_article [])
       ["http://site/a/story-123456"; "https://site/a/story-123456"]
     = Ok [["http://site/a/story-123456"]; ["https://site/a/story-123456"]].
Proof.
  split; [|split].
  - vm_compute. reflexivity.
  - vm_compute. discriminate.
  - vm_compute. reflexivity.
Qed.

Lemma article_url_plain_http r :
  contains "https://" r = false -> article_url ("http://" ++ r) = "http://" ++ r.
Proof.
  intros H. unfold article_url, rsplit1_last.
  assert (N : after_last "https://" ("http://" ++ r) = None).
  { apply after_last_none; [discriminate|]. cbn. exact H. }
  now rewrite N.
Qed.

Lemma article_url_plain_https r :
  contains "https://" r = false -> article_url ("https://" ++ r) = r.
Proof.
  intros H. unfold article_url. exact (rsplit1_last_wrapped "" r H).
Qed.

(** C3, amended: candidate links are grouped by the text after their last
    [https://]. Whenever the date column of the frame can be computed, every
    link lies in the group made of all the links with its key, in first-seen
    order; every group is such a list; no group occurs twice; the links of
    one group all have the same key, so links with different keys never
    share a group; and two links with the same key (two archive copies of
    one [https://] address) alone give exactly one group holding both, the
    first-seen first. Two plain addresses that differ only in scheme,
    [http://] and [https://] in front of a text [r] that holds no
    [https://], have different keys. *)
Theorem aggregate_links_groups (w : World) (all_links : list string) :
  date_column_ok w all_links ->
  exists groups,
    aggregate_links w all_links = Ok groups
    /\ (forall u, In u all_links ->
          In (filter (fun v => String.eqb (article_url v) (article_url u))
                     all_links) groups)
    /\ (forall g, In g groups ->
          g <> []
          /\ exists u, In u all_links
               /\ g = filter (fun v => String.eqb (article_url v)
                                                  (article_url u)) all_links)
    /\ NoDup groups
    /\ (forall u1 u2,
          all_links = [u1; u2] -> article_url u1 = article_url u2 ->
          groups = [[u1; u2]])
    /\ (forall g u v,
          In g groups -> In u g -> In v g -> article_url u = article_url v)
    /\ (forall r,
          contains "https://" r = false ->
          article_url ("http://" ++ r) <> article_url ("https://" ++ r)).
Proof.
  intros H. eexists. split; [now apply aggregate_links_ok|].
  pose proof (groupby_groups_of String.eqb String.ltb article_url
                String.eqb_eq all_links) as G.
  pose proof (groups_distinct _ _ String.eqb_eq _ _ G) as D.
  destruct G as (Hnd & Hcontent & Hmem & Hperm).
  split; [|split; [|split; [|split; [|split]]]].
  - intros u Hu. apply Hmem, in_map_iff in Hu as ([k xs] & Hk & Hin).
    cbn [fst] in Hk. subst k.
    destruct (Hcontent _ _ Hin) as [<- _]. now apply (in_map snd) in Hin.
  - intros g Hg. apply in_map_iff in Hg as ([k xs] & Hk & Hin).
    cbn [snd] in Hk. subst xs.
    destruct (Hcontent _ _ Hin) as [E Hne]. split; [assumption|].
    destruct g as [|u g]; [congruence|].
    assert (I : In u (filter (fun y => String.eqb (article_url y) k) all_links))
      by (rewrite <- E; now left).
    apply filter_In in I as [Hu Hk]. apply String.eqb_eq in Hk. subst k.
    now exists u.
  - exact D.
  - intros u1 u2 -> Hk. unfold groupby, collect_groups. cbn.
    rewrite Hk, String.eqb_refl. reflexivity.
  - intros g u v Hg Hu Hv. apply in_map_iff in Hg as ([k xs] & Hk & Hin).
    cbn [snd] in Hk. subst xs.
    destruct (Hcontent _ _ Hin) as [E _]. rewrite E in Hu, Hv.
    apply filter_In in Hu as [_ Hu], Hv as [_ Hv].
    apply String.eqb_eq in Hu, Hv. congruence.
  - intros r Hr.
    rewrite (article_url_plain_http r Hr), (article_url_plain_https r Hr).
    intros E. apply (f_equal String.length) in E. cbn in E. lia.
Qed.

Lemma aggregate_links_groups_witness :
  date_column_ok (sample_world sample_article [])
                 [archive_link_1; archive_link_2]
  /\ aggregate_links (sample_world sample_article [])
       [archive_link_1; archive_link_2]
     = Ok [[archive_link_1; archive_link_2]].
Proof.
  assert (H : date_column_ok (sample_world sample_article [])
                             [archive_link_1; archive_link_2]).
  { repeat constructor; cbn; eexists; reflexivity. }
  split; [exact H|].
  destruct (aggregate_links_groups (sample_world sample_article [])
              [archive_link_1; archive_link_2] H)
    as (groups & -> & _ & _ & _ & Hpair & _).
  f_equal. apply Hpair; reflexivity.
Defined.

(** ** Sampling of the index records *)

Lemma date_eqb_spec a b : date_eqb a b = true <-> a = b.
Proof.
  destruct a as [y m d], b as [y' m' d']. unfold date_eqb. cbn [year month day].
  rewrite !andb_true_iff, !Nat.eqb_eq. split.
  - intros [[-> ->] ->]. reflexivity.
  - intros H. injection H as -> -> ->. auto.
Qed.

Lemma key_eqb_spec a b : key_eqb a b = true <-> a = b.
Proof.
  destruct a as [d s], b as [d' s']. unfold key_eqb. cbn [fst snd].
  rewrite andb_true_iff, date_eqb_spec, String.eqb_eq. split.
  - intros [-> ->]. reflexivity.
  - intros H. injection H as -> ->. auto.
Qed.






Section Sampling.
Variable w : World.
Variable self : Scrapper.
Hypothesis pandas : pandas_ok w.
Hypothesis captures : (0 <= no_of_captures self)%Z.

Local Abbreviation n := (Z.to_nat (no_of_captures self)).
Local Abbreviation rc := (random_choice w self).

Lemma random_choice_length xs :
  List.length (rc xs) = Nat.min n (List.length xs).
Proof.
  unfold random_choice. destruct (List.length xs =? 0)%nat eqn:E.
  - apply Nat.eqb_eq in E. rewrite E. now rewrite Nat.min_0_r.
  - rewrite (sample_length w pandas); lia.
Qed.

Lemma random_choice_sub xs : exists rest, Permutation (rc xs ++ rest) xs.
Proof.
  unfold random_choice. destruct (List.length xs =? 0)%nat eqn:E.
  - now exists xs.
  - apply (sample_without_replacement w pandas). lia.
Qed.




Lemma selected_sub (gs : list ((date * string) * list Row)) :
  exists rest,
    Permutation (flat_map (fun g => rc (snd g)) gs ++ rest)
                (flat_map snd gs).
Proof.
  induction gs as [|[k xs] gs [rest IH]]; [now exists []|].
  destruct (random_choice_sub xs) as [rest0 P0].
  exists (rest0 ++ rest)%list. cbn [flat_map snd].
  eapply Permutation_trans; [|apply Permutation_app; [exact P0 | exact IH]].
  rewrite <- !app_assoc. apply Permutation_app_head.
  rewrite !app_assoc. apply Permutation_app_tail.
  apply Permutation_app_comm.
Qed.


Lemma sample_rows_sub df :
  exists rest, Permutation (sample_rows w self df ++ rest) df.
Proof.
  unfold sample_rows.
  pose proof (sort_values_perm w pandas Row row_datetime df) as P.
  destruct (groupby_groups_of key_eqb key_ltb row_key key_eqb_spec
              (sort_values w Row row_datetime df)) as (_ & _ & _ & F).
  destruct (selected_sub (groupby key_eqb key_ltb row_key
                            (sort_values w Row row_datetime df)))
    as [rest S].
  exists rest. now rewrite S, F.
Qed.
End Sampling.

Lemma sample_world_pandas_ok article rows :
  pandas_ok (sample_world article rows).
Proof.
  constructor; cbn.
  - intros A seed n l H. now apply firstn_length_le.
  - intros A seed n l H. exists (skipn n l). now rewrite firstn_skipn.
  - reflexivity.
Qed.

Example sample_rows_one_per_group :
  map row_timestamp
      (sample_rows (sample_world sample_article []) (sample_scrapper 1)
                   sample_frame)
  = ["20250110123456"; "20250111093000"].
Proof. vm_compute. reflexivity. Qed.




(* ================================================================== *)
(** * Further properties of the code *)
(* ================================================================== *)

(** ** Fetching *)

(** X1: [safe_get] never raises a [RequestException]. It returns a response
    exactly when the session returned it with a status outside 400..599, it
    returns [None] exactly when the session raised a [RequestException] or
    answered with a status in 400..599, and any other exception of the
    session is passed on. *)
Theorem safe_get_outcomes (w : World) (url : string) :
  safe_get w url <> Raise RequestException
  /\ (forall resp,
         safe_get w url = Ok (Some resp) <->
         session_get w url = Ok resp
         /\ ((400 <=? status_code resp) && (status_code resp <? 600))%nat
            = false)
  /\ (safe_get w url = Ok None <->
      session_get w url = Raise RequestException
      \/ exists resp,
           session_get w url = Ok resp
           /\ ((400 <=? status_code resp) && (status_code resp <? 600))%nat
              = true)
  /\ (forall e, e <> RequestException ->
                (safe_get w url = Raise e <-> session_get w url = Raise e)).
Proof.
  unfold safe_get, try_except.
  destruct (session_get w url) as [resp|e]; cbn [bind].
  - destruct ((400 <=? status_code resp) && (status_code resp <? 600))%nat
      eqn:E.
    + split; [|split; [|split]].
      * discriminate.
      * intros r. split; [discriminate|]. intros [H1 H2].
        injection H1 as <-. congruence.
      * split; [|reflexivity]. intros _. right. now exists resp.
      * intros e _. split; discriminate.
    + split; [|split; [|split]].
      * discriminate.
      * intros r. split.
        -- intros H. injection H as <-. now split.
        -- intros [H _]. now injection H as <-.
      * split; [discriminate|]. intros [H|(r & H & H')]; [discriminate|].
        injection H as <-. congruence.
      * intros e _. split; discriminate.
  - destruct e;
      (split; [discriminate|];
       split; [intros r; split; [discriminate | intros [H _]; discriminate]|];
       split;
       [ first [ split; [now left | reflexivity]
               | split; [discriminate
                        | intros [H|(r & H & _)]; discriminate] ]
       | intros e' He'; first [ tauto | split; intros H; congruence ] ]).
Qed.

(** ** Article extraction never succeeds *)

(** X2: for every list of variant URLs and whatever the network and the
    parser answer, [process_article_url] returns [None]: each variant either
    is skipped or raises at the latest at [re.compile], which is given a
    list. *)
Theorem process_article_url_always_none (w : World) (urls : list string) :
  process_article_url w urls = Ok None
  /\ (forall url, variant_body w url = Ok Continue
                  \/ exists e, variant_body w url = Raise e).
Proof.
  split; [apply process_article_url_none|].
  intros url. destruct (variant_body w url) as [[|a]|e] eqn:E; eauto.
  now destruct (variant_body_never_returns w url a).
Qed.

(** X3: whenever [download] returns, it returns the empty list. *)
Theorem download_returns_no_article (w : World) (self : Scrapper)
    (articles : list ArticleData) :
  download w self = Ok articles -> articles = [].
Proof.
  unfold download.
  destruct (get_all_records w self) as [records|e]; cbn [bind];
    [|discriminate].
  destruct (get_all_article_links w records) as [[|g groups]|e];
    cbn [bind]; try congruence.
  generalize (g :: groups) as l. intros l.
  rewrite download_articles_collects
    by (intros g'; exists None; apply process_article_url_none).
  intros H. injection H as <-.
  induction l as [|g' l IH]; [reflexivity|].
  cbn [flat_map]. now rewrite process_article_url_none.
Qed.

Lemma download_returns_no_article_witness :
  download (crawl_world sample_article
              [("timestamp", "original");
               ("20250110123456", "https://www.marketwatch.com")])
           (sample_scrapper (-1)) = Ok []
  /\ get_all_article_links
       (crawl_world sample_article [])
       [("20250110123456", "https://www.marketwatch.com/markets")]
     = Ok [[archive_link_1]].
Proof.
  split; [|vm_compute; reflexivity].
  assert (H : exists articles,
             download (crawl_world sample_article
                         [("timestamp", "original");
                          ("20250110123456", "https://www.marketwatch.com")])
                      (sample_scrapper (-1)) = Ok articles).
  { eexists. vm_compute. reflexivity. }
  destruct H as [articles H]. rewrite H. f_equal.
  exact (download_returns_no_article _ _ _ H).
Defined.

(** ** Link extraction *)

Lemma prefix_app_l p a b : prefix p a = true -> prefix p (a ++ b) = true.
Proof.
  revert a. induction p as [|c p IH]; intros a H; [now destruct (a ++ b)|].
  destruct a as [|d a]; [discriminate|].
  cbn [append]. rewrite prefix_cons in *.
  apply andb_true_iff in H as [-> H]. now rewrite IH.
Qed.

Lemma contains_app_l sub a b :
  contains sub a = true -> contains sub (a ++ b) = true.
Proof.
  induction a as [|c a IH]; intros H.
  - destruct sub as [|c sub]; [|discriminate].
    apply contains_prefix. now destruct ("" ++ b).
  - cbn [contains] in H. destruct (prefix sub (String c a)) eqn:P.
    + apply contains_prefix. now apply prefix_app_l.
    + cbn [append]. now apply contains_cons, IH.
Qed.

Lemma lower_app a b : lower (a ++ b) = lower a ++ lower b.
Proof. induction a as [|c a IH]; cbn; [reflexivity | now rewrite IH]. Qed.

Lemma before_last_prefix sep s r :
  before_last sep s = Some r -> exists rest, s = r ++ sep ++ rest.
Proof.
  revert r. induction s as [|c s IH]; intros r H; [discriminate|].
  cbn [before_last] in H. destruct (before_last sep s) as [r'|].
  - injection H as <-. destruct (IH r' eq_refl) as [rest ->].
    now exists rest.
  - destruct (prefix sep (String c s)) eqn:P; [|discriminate].
    injection H as <-. exists (drop (length sep) (String c s)).
    cbn [append]. now apply prefix_split.
Qed.

Lemma prefix_before_char p u c t :
  char_in c p = false -> prefix p (u ++ String c t) = true ->
  prefix p u = true.
Proof.
  revert u. induction p as [|a p IH]; intros u Hc H; [now destruct u|].
  cbn [char_in] in Hc. apply orb_false_iff in Hc as [Hca Hcp].
  destruct u as [|b u]; cbn [append] in H; rewrite prefix_cons in *.
  - apply andb_true_iff in H as [Hab _].
    rewrite Ascii.eqb_sym in Hab. congruence.
  - apply andb_true_iff in H as [-> H]. now apply IH.
Qed.

Lemma lower_char_hash c :
  Ascii.eqb "#" (lower_char c) = Ascii.eqb "#" c.
Proof. destruct c as [[] [] [] [] [] [] [] []]; reflexivity. Qed.

Lemma contains_hash_lower s : contains "#" (lower s) = contains "#" s.
Proof.
  induction s as [|c s IH]; [reflexivity|].
  cbn [lower contains]. rewrite !prefix_cons, lower_char_hash, IH.
  now destruct (lower s), s.
Qed.

Lemma article_links_loop_acc hrefs acc :
  article_links_loop hrefs acc = (acc ++ article_links_loop hrefs [])%list.
Proof.
  revert acc. induction hrefs as [|href rest IH]; intros acc;
    cbn [article_links_loop].
  - now rewrite app_nil_r.
  - destruct (negb (nonempty href) || startswith "#" href
              || existsb (fun pattern => contains pattern (lower href))
                         EXCLUDE_PATTERNS
              || negb (startswith "http" href)); [apply IH|].
    destruct (is_article (rsplit1_first "?mod" href)); [|apply IH].
    cbn [app]. rewrite (IH (acc ++ _)%list), (IH [_]), app_assoc.
    reflexivity.
Qed.

Lemma article_links_loop_in hrefs link :
  In link (article_links_loop hrefs []) ->
  exists href,
    In href hrefs
    /\ existsb (fun pattern => contains pattern (lower href)) EXCLUDE_PATTERNS
       = false
    /\ startswith "http" href = true
    /\ link = rsplit1_first "?mod" href
    /\ is_article link = true.
Proof.
  induction hrefs as [|href rest IH]; [intros []|].
  cbn [article_links_loop].
  destruct (negb (nonempty href) || startswith "#" href
            || existsb (fun pattern => contains pattern (lower href))
                       EXCLUDE_PATTERNS
            || negb (startswith "http" href)) eqn:E.
  - intros H. destruct (IH H) as (h & Hin & Hrest). exists h.
    split; [now right | exact Hrest].
  - apply orb_false_iff in E as [E Hhttp].
    apply orb_false_iff in E as [_ Hpat].
    apply negb_false_iff in Hhttp.
    destruct (is_article (rsplit1_first "?mod" href)) eqn:A.
    + rewrite article_links_loop_acc. intros [<-|H].
      * exists href. repeat split; try assumption. now left.
      * destruct (IH H) as (h & Hin & Hrest). exists h.
        split; [now right | exact Hrest].
    + intros H. destruct (IH H) as (h & Hin & Hrest). exists h.
      split; [now right | exact Hrest].
Qed.

Lemma article_links_loop_kept (hrefs : list string) (link : string) :
  In link (article_links_loop hrefs []) ->
  is_article link = true
  /\ startswith "http" link = true
  /\ (forall pattern, In pattern EXCLUDE_PATTERNS ->
                      contains pattern (lower link) = false)
  /\ contains "#" link = false
  /\ exists href rest, In href hrefs /\ href = link ++ rest.
Proof.
  intros H.
  destruct (article_links_loop_in hrefs link H)
    as (href & Hin & Hpat & Hhttp & -> & Hart).
  assert (Hpre : exists rest, href = rsplit1_first "?mod" href ++ rest).
  { unfold rsplit1_first.
    destruct (before_last "?mod" href) as [r|] eqn:B.
    - destruct (before_last_prefix _ _ _ B) as [rest E].
      exists ("?mod" ++ rest). exact E.
    - exists "". now rewrite app_nil_r_s. }
  assert (Hpats : forall pattern, In pattern EXCLUDE_PATTERNS ->
             contains pattern (lower (rsplit1_first "?mod" href)) = false).
  { intros pattern Hp.
    destruct (contains pattern (lower (rsplit1_first "?mod" href))) eqn:C;
      [|reflexivity].
    destruct Hpre as [rest E].
    apply (contains_app_l _ _ (lower rest)) in C.
    rewrite <- lower_app, <- E in C.
    rewrite <- Hpat. symmetry. apply existsb_exists. now exists pattern. }
  split; [exact Hart|]. split; [|split; [exact Hpats|split]].
  - unfold rsplit1_first, startswith in *.
    destruct (before_last "?mod" href) as [r|] eqn:B; [|exact Hhttp].
    destruct (before_last_prefix _ _ _ B) as [rest E]. rewrite E in Hhttp.
    now apply (prefix_before_char "http" r "?" ("mod" ++ rest)).
  - rewrite <- contains_hash_lower. apply Hpats.
    assert (E : existsb (String.eqb "#") EXCLUDE_PATTERNS = true)
      by (vm_compute; reflexivity).
    apply existsb_exists in E as (p & Hp & E).
    apply String.eqb_eq in E. now subst p.
  - destruct Hpre as [rest E]. now exists href, rest.
Qed.

(** X4: every link that the loop of [extract_article_links] keeps passes the
    article test, starts with [http], holds none of the exclusion patterns in
    any letter case (so no ['#'] either), and is the start of one of the
    [href] values of the page: the loop invents no address. *)
Theorem article_links_loop_sound (hrefs : list string) (link : string) :
  In link (article_links_loop hrefs []) ->
  is_article link = true
  /\ startswith "http" link = true
  /\ (forall pattern, In pattern EXCLUDE_PATTERNS ->
                      contains pattern (lower link) = false)
  /\ contains "#" link = false
  /\ exists href rest, In href hrefs /\ href = link ++ rest.
Proof. apply article_links_loop_kept. Qed.

Lemma article_links_loop_sound_witness :
  In "https://www.marketwatch.com/story/a-title-12345"
     (article_links_loop
        ["#top"; "https://www.marketwatch.com/video/clip-12345";
         "https://www.marketwatch.com/story/a-title-12345?mod=home"] [])
  /\ is_article "https://www.marketwatch.com/story/a-title-12345" = true.
Proof.
  assert (H : In "https://www.marketwatch.com/story/a-title-12345"
     (article_links_loop
        ["#top"; "https://www.marketwatch.com/video/clip-12345";
         "https://www.marketwatch.com/story/a-title-12345?mod=home"] [])).
  { vm_compute. now left. }
  split; [exact H|].
  exact (proj1 (article_links_loop_sound _ _ H)).
Defined.

(** ** The sampling key *)

(** X5: the key of the record sampling does not see the scheme: an address
    gets the same key with [http://], with [https://] or with no scheme in
    front. *)
Theorem clean_url_ignores_scheme (x : string) :
  clean_url ("http://" ++ x) = clean_url x
  /\ clean_url ("https://" ++ x) = clean_url x.
Proof.
  assert (R1 : remove "http://" ("http://" ++ x) = remove "http://" x).
  { unfold remove. cbn. now destruct x. }
  assert (R2 : remove "http://" ("https://" ++ x)
               = "https://" ++ remove "http://" x).
  { unfold remove. cbn. reflexivity. }
  assert (R3 : forall y, remove "https://" ("https://" ++ y)
                         = remove "https://" y).
  { intros y. unfold remove. cbn. now destruct y. }
  unfold clean_url. now rewrite R1, R2, R3.
Qed.

(** X6: the key of the record sampling holds no empty path segment and no
    scheme: it never contains [//], [http://] or [https://] and never
    starts with [/]. *)
Theorem clean_url_shape (x : string) :
  contains "//" (clean_url x) = false
  /\ contains "http://" (clean_url x) = false
  /\ contains "https://" (clean_url x) = false
  /\ prefix "/" (clean_url x) = false.
Proof.
  destruct (clean_url_segments x) as (segs & E & H).
  destruct (join_no_dslash segs H) as [Hc Hp]. rewrite <- E in Hc, Hp.
  split; [exact Hc|]. split; [|split; [|exact Hp]].
  - apply contains_scheme_dslash; [reflexivity | exact Hc].
  - apply contains_scheme_dslash; [reflexivity | exact Hc].
Qed.

(** ** Digit runs *)

Lemma take_digits_spec n s m :
  take_digits n s = Some m ->
  String.length m = n /\ all_digits m = true /\ prefix m s = true.
Proof.
  revert s m. induction n as [|n IH]; intros s m H.
  - injection H as <-. repeat split. now destruct s.
  - destruct s as [|c s]; [discriminate|]. cbn [take_digits] in H.
    destruct (is_digit c) eqn:D; [|discriminate].
    destruct (take_digits n s) as [m'|] eqn:T; [|discriminate].
    injection H as <-. destruct (IH _ _ T) as (L & A & P).
    cbn [String.length all_digits]. rewrite prefix_cons, Ascii.eqb_refl, D.
    repeat split; auto.
Qed.

Lemma findall_digits_in n skip s m :
  In m (findall_digits n skip s) ->
  String.length m = n /\ all_digits m = true /\ contains m s = true.
Proof.
  revert skip. induction s as [|c s IH]; intros skip H; [destruct H|].
  cbn [findall_digits] in H.
  assert (K : forall k, In m (findall_digits n k s) ->
                String.length m = n /\ all_digits m = true
                /\ contains m (String c s) = true).
  { intros k Hk. destruct (IH k Hk) as (L & A & C).
    repeat split; try assumption. now apply contains_cons. }
  destruct skip as [|k]; [|now apply (K k)].
  destruct (take_digits n (String c s)) as [m0|] eqn:T; [|now apply (K 0)].
  destruct H as [<-|H]; [|now apply (K (n - 1))].
  destruct (take_digits_spec _ _ _ T) as (L & A & P).
  repeat split; try assumption. now apply contains_prefix.
Qed.

(** X7: every entry of the timestamp field is a run of exactly fourteen
    digits that occurs in the variant URL. *)
Theorem timestamp_entries (url : string) :
  exists l,
    timestamp (init_article_data url) = PyList l
    /\ forall m, In m l ->
                 String.length m = 14%nat
                 /\ all_digits m = true
                 /\ contains m url = true.
Proof.
  eexists. split; [reflexivity|]. intros m. apply findall_digits_in.
Qed.

Lemma findall_digits8_eol_head s m l :
  findall_digits8_eol s = m :: l ->
  String.length m = 8%nat /\ all_digits m = true /\ contains m s = true.
Proof.
  assert (M : forall t, match_digits8_eol t = Some m ->
                String.length m = 8%nat /\ all_digits m = true
                /\ contains m t = true).
  { intros t H. unfold match_digits8_eol in H.
    destruct (take_digits 8 t) as [m0|] eqn:T; [|discriminate].
    destruct (_ || _); [|discriminate]. injection H as <-.
    destruct (take_digits_spec _ _ _ T) as (L & A & P).
    repeat split; try assumption. now apply contains_prefix. }
  induction s as [|c s IH]; cbn [findall_digits8_eol]; intros H.
  - destruct (match_digits8_eol "") eqn:E; [|discriminate].
    injection H as -> _. now apply M.
  - destruct (match_digits8_eol (String c s)) eqn:E.
    + injection H as -> _. now apply M.
    + destruct (IH H) as (L & A & C). repeat split; try assumption.
      now apply contains_cons.
Qed.

(** ** The date of an article *)

Lemma date_stage_some article d :
  date_stage article = Ok (Some d) ->
  publish_date article = None
  /\ exists s m l,
       md_getitem article "article.id" = PyStr s
       /\ findall_digits8_eol s = m :: l
       /\ strptime_Ymd m = Ok d.
Proof.
  unfold date_stage. destruct (publish_date article); [discriminate|].
  intros H. split; [reflexivity|].
  assert (E : exists s, md_getitem article "article.id" = PyStr s
                /\ py_or (md_getitem article "article.id") (PyStr "")
                   = PyStr s).
  { unfold py_or in *.
    destruct (md_getitem article "article.id") as [|s|l|]; cbn in *;
      try discriminate.
    - exists s. split; [reflexivity|]. now destruct s.
    - destruct l; discriminate. }
  destruct E as (s & Es & Eor). rewrite Eor in H. cbn [bind] in H.
  exists s. destruct (findall_digits8_eol s) as [|m l]; [discriminate|].
  exists m, l. split; [exact Es|]. split; [reflexivity|].
  cbn [bind] in H. destruct (String.length m =? 8)%nat; [|discriminate].
  unfold try_except in H.
  destruct (strptime_Ymd m) as [d'|e]; cbn [bind] in H.
  - now injection H as <-.
  - destruct e; discriminate.
Qed.



(** X9: a page for which the parser found no publish date and whose
    [article.id] entry is missing, empty or does not end in eight digits
    makes the date code raise [IndexError] (the [[0]] of line 255 on an empty
    list): the variant is given up, no record with an empty date is
    built. *)
Theorem date_stage_index_error (article : Article) :
  publish_date article = None ->
  (truthy (md_getitem article "article.id") = false
   \/ exists s, md_getitem article "article.id" = PyStr s
                 /\ findall_digits8_eol s = []) ->
  date_stage article = Raise IndexError.
Proof.
  intros Hp H. unfold date_stage. rewrite Hp.
  destruct H as [H|(s & Es & Ef)].
  - unfold py_or. rewrite H. reflexivity.
  - unfold py_or. rewrite Es. cbn [truthy].
    destruct (nonempty s); cbn [bind]; [now rewrite Ef | reflexivity].
Qed.

Lemma date_stage_index_error_witness :
  publish_date undated_article = None
  /\ date_stage undated_article = Raise IndexError.
Proof.
  split; [reflexivity|].
  apply (date_stage_index_error undated_article); [reflexivity|].
  left. reflexivity.
Defined.

Lemma is_digit_char c :
  is_digit c = true ->
  (digit_val c < 10)%nat /\ c = digit_char (digit_val c).
Proof.
  unfold is_digit, digit_val, digit_char. intros H.
  apply andb_true_iff in H as [H1 H2].
  apply Nat.leb_le in H1, H2. split; [lia|].
  replace (48 + (nat_of_ascii c - 48))%nat with (nat_of_ascii c) by lia.
  now rewrite ascii_nat_embedding.
Qed.

Lemma digit_val_char k : (k < 10)%nat -> digit_val (digit_char k) = k.
Proof.
  intros H. do 10 (destruct k as [|k]; [reflexivity|]). lia.
Qed.

Lemma two_digits_text a b :
  (a < 10)%nat -> (b < 10)%nat ->
  two_digits (dec (String (digit_char a) (String (digit_char b) "")))
  = String (digit_char a) (String (digit_char b) "").
Proof.
  intros Ha Hb.
  do 10 (destruct a as [|a];
         [do 10 (destruct b as [|b]; [reflexivity|]); lia|]).
  lia.
Qed.

(** Every year from 1000 to 9999 is printed by [%Y] as the four digits it
    is read from. *)
Lemma year_text_check_ok :
  forallb (fun a =>
    forallb (fun b =>
      forallb (fun c =>
        forallb (fun d =>
          String.eqb (decimal (dec (four_digits a b c d)))
                     (four_digits a b c d))
          (seq 0 10)) (seq 0 10)) (seq 0 10)) (seq 1 9)
  = true.
Proof. vm_compute. reflexivity. Qed.

Lemma year_text a b c d :
  (1 <= a < 10)%nat -> (b < 10)%nat -> (c < 10)%nat -> (d < 10)%nat ->
  decimal (dec (four_digits a b c d)) = four_digits a b c d.
Proof.
  intros Ha Hb Hc Hd. pose proof year_text_check_ok as H.
  assert (I : forall k lo n, (lo <= k < lo + n)%nat -> In k (seq lo n))
    by (intros; now apply in_seq).
  apply (proj1 (forallb_forall _ _)) with (x := a) in H; [|apply I; lia].
  apply (proj1 (forallb_forall _ _)) with (x := b) in H; [|apply I; lia].
  apply (proj1 (forallb_forall _ _)) with (x := c) in H; [|apply I; lia].
  apply (proj1 (forallb_forall _ _)) with (x := d) in H; [|apply I; lia].
  now apply String.eqb_eq.
Qed.

Lemma dec_four_digits a b c d :
  (a < 10)%nat -> (b < 10)%nat -> (c < 10)%nat -> (d < 10)%nat ->
  dec (four_digits a b c d) = (1000 * a + 100 * b + 10 * c + d)%nat.
Proof.
  intros Ha Hb Hc Hd. unfold dec, four_digits. cbn [dec_from].
  rewrite !digit_val_char by assumption. lia.
Qed.

Lemma iso_of_digits m d :
  String.length m = 8%nat ->
  all_digits m = true ->
  strptime_Ymd m = Ok d ->
  (1000 <= year d)%nat ->
  strftime_iso d
  = substring 0 4 m ++ "-" ++ substring 4 2 m ++ "-" ++ substring 6 2 m.
Proof.
  intros L A H Hy.
  do 8 (destruct m as [|? m]; [discriminate|]).
  destruct m; [|discriminate]. clear L.
  cbn [all_digits] in A.
  repeat match type of A with
         | (_ && _) = true => apply andb_true_iff in A as [? A]
         end.
  repeat match goal with
         | X : is_digit ?c = true |- _ =>
             let K := fresh "K" in let E := fresh "E" in
             destruct (is_digit_char c X) as [K E];
             generalize dependent (digit_val c); intros; subst c; clear X
         end.
  unfold strptime_Ymd in H. cbn [substring] in H.
  destruct (_ && _)%nat in H; [|discriminate].
  injection H as <-. unfold strftime_iso. cbn [year month day substring] in *.
  match goal with
  | |- context [dec (String (digit_char ?a) (String (digit_char ?b)
                   (String (digit_char ?c) (String (digit_char ?d) ""))))] =>
      change (String (digit_char a) (String (digit_char b)
                (String (digit_char c) (String (digit_char d) ""))))
        with (four_digits a b c d) in *;
      rewrite dec_four_digits in Hy by assumption;
      rewrite (year_text a b c d) by lia
  end.
  rewrite !two_digits_text by assumption. reflexivity.
Qed.

(** X10: when the date of an article is read from [article.id] and its year
    has four digits, the text stored in the date field is these eight
    digits with a hyphen after the fourth and after the sixth: the digits
    are not changed by the parsing and printing. *)
Theorem date_field_from_article_id (article : Article) (d : date) :
  date_stage article = Ok (Some d) ->
  (1000 <= year d)%nat ->
  exists s m l,
    md_getitem article "article.id" = PyStr s
    /\ findall_digits8_eol s = m :: l
    /\ date_text (Some d)
       = substring 0 4 m ++ "-" ++ substring 4 2 m ++ "-" ++ substring 6 2 m.
Proof.
  intros H Hy.
  destruct (date_stage_some _ _ H) as (_ & s & m & l & Es & Ef & Ed).
  exists s, m, l. split; [exact Es|]. split; [exact Ef|].
  destruct (findall_digits8_eol_head _ _ _ Ef) as (L & A & _).
  now apply iso_of_digits.
Qed.

Lemma date_field_from_article_id_witness :
  date_stage sample_article = Ok (Some (mkdate 2025 1 10))
  /\ (1000 <= year (mkdate 2025 1 10))%nat
  /\ exists s m l,
       md_getitem sample_article "article.id" = PyStr s
       /\ findall_digits8_eol s = m :: l
       /\ date_text (Some (mkdate 2025 1 10))
          = substring 0 4 m ++ "-" ++ substring 4 2 m ++ "-"
            ++ substring 6 2 m.
Proof.
  split; [reflexivity|]. split; [cbn; lia|].
  apply (date_field_from_article_id sample_article (mkdate 2025 1 10));
    [reflexivity | cbn; lia].
Defined.

(** ** The index records *)

Lemma records_frame_rows w records df :
  records_frame w records = Ok df ->
  map (fun r => (row_timestamp r, row_original r)) df = records.
Proof.
  unfold records_frame. revert df.
  induction records as [|[ts orig] records IH]; intros df H.
  - now injection H as <-.
  - cbn [map_results fst snd] in H.
    destruct (to_datetime w "%Y%m%d%H%M%S" ts) as [dt|e]; [|discriminate].
    cbn [bind] in H.
    destruct (map_results _ records) as [rows|e]; [|discriminate].
    cbn [bind] in H. injection H as <-. cbn. f_equal. now apply IH.
Qed.

Lemma fan_out_in (tops : list string) (records : list (string * string)) ts u :
  In (ts, u)
     (flat_map (fun x => map (fun topic => (fst x, snd x ++ "/" ++ topic)) tops)
               records) <->
  exists orig topic,
    In (ts, orig) records /\ In topic tops /\ u = orig ++ "/" ++ topic.
Proof.
  rewrite in_flat_map. split.
  - intros ([ts' orig] & Hin & Hm). apply in_map_iff in Hm as (topic & E & Ht).
    cbn [fst snd] in E. injection E as -> <-. now exists orig, topic.
  - intros (orig & topic & Hin & Ht & ->). exists (ts, orig).
    split; [assumption|]. apply in_map_iff. now exists topic.
Qed.

Lemma fan_out_length (tops : list string) (records : list (string * string)) :
  List.length
    (flat_map (fun x => map (fun topic => (fst x, snd x ++ "/" ++ topic)) tops)
              records)
  = (List.length records * List.length tops)%nat.
Proof.
  induction records as [|x records IH]; [reflexivity|].
  cbn [flat_map]. rewrite length_app, length_map, IH. reflexivity.
Qed.

(** X11: without a capture limit (the default -1) [get_all_records] gives,
    for every index record and every topic, the record's timestamp with the
    address [original + "/" + topic], and nothing else: as many pairs as
    records times topics. *)
Theorem get_all_records_fan_out (w : World) (self : Scrapper)
    (records : list (string * string)) :
  (no_of_captures self <= -1)%Z ->
  cdx_query w (site self) (start_date self) (end_date self) = Ok records ->
  exists l,
    get_all_records w self = Ok l
    /\ List.length l = (List.length records * List.length (topics self))%nat
    /\ forall ts u,
         In (ts, u) l <->
         exists orig topic,
           In (ts, orig) records /\ In topic (topics self)
           /\ u = orig ++ "/" ++ topic.
Proof.
  intros HN Hq. unfold get_all_records. rewrite Hq. cbn [bind].
  destruct records as [|r records].
  - exists []. split; [reflexivity|]. split; [reflexivity|].
    intros ts u. split; [intros []|]. now intros (orig & topic & [] & _).
  - assert (G : (no_of_captures self >? -1)%Z = false)
      by (rewrite Z.gtb_ltb; apply Z.ltb_ge; exact HN).
    rewrite G. cbn [bind]. eexists. split; [reflexivity|].
    split; [apply fan_out_length | intros ts u; apply fan_out_in].
Qed.

Lemma get_all_records_fan_out_witness :
  exists l,
    get_all_records
      (sample_world sample_article
         [("timestamp", "original");
          ("20250110123456", "https://www.marketwatch.com")])
      (sample_scrapper (-1)) = Ok l
    /\ List.length l = 12%nat.
Proof.
  destruct (get_all_records_fan_out
              (sample_world sample_article
                 [("timestamp", "original");
                  ("20250110123456", "https://www.marketwatch.com")])
              (sample_scrapper (-1))
              [("20250110123456", "https://www.marketwatch.com")])
    as (l & H & L & _).
  - cbn. lia.
  - reflexivity.
  - exists l. split; [exact H | exact L].
Defined.

Lemma sample_records_sub w self records sel :
  pandas_ok w -> (0 <= no_of_captures self)%Z ->
  sample_records w self records = Ok sel ->
  exists rest, Permutation (sel ++ rest) records.
Proof.
  intros pandas captures H. unfold sample_records in H.
  destruct (records_frame w records) as [df|e] eqn:F; [|discriminate].
  cbn [bind] in H. injection H as <-.
  destruct (sample_rows_sub w self pandas captures df) as [rest P].
  exists (map (fun r => (row_timestamp r, row_original r)) rest).
  rewrite <- map_app, <- (records_frame_rows _ _ _ F).
  now apply Permutation_map.
Qed.

(** X12: with or without a capture limit, every pair that
    [get_all_records] returns is made of the timestamp and original address
    of an index record and of one configured topic, and there are at most
    records times topics of them: sampling only drops records. *)
Theorem get_all_records_sound (w : World) (self : Scrapper)
    (records l : list (string * string)) :
  pandas_ok w ->
  cdx_query w (site self) (start_date self) (end_date self) = Ok records ->
  get_all_records w self = Ok l ->
  (List.length l <= List.length records * List.length (topics self))%nat
  /\ forall ts u,
       In (ts, u) l ->
       exists orig topic,
         In (ts, orig) records /\ In topic (topics self)
         /\ u = orig ++ "/" ++ topic.
Proof.
  intros pandas Hq H. unfold get_all_records in H. rewrite Hq in H.
  cbn [bind] in H. destruct records as [|r records].
  - injection H as <-. split; [cbn; lia | intros ts u []].
  - destruct (no_of_captures self >? -1)%Z eqn:G.
    + destruct (sample_records w self (r :: records)) as [sel|e] eqn:S;
        [|discriminate].
      cbn [bind] in H. injection H as <-.
      assert (captures : (0 <= no_of_captures self)%Z)
        by (apply Z.gtb_lt in G; lia).
      destruct (sample_records_sub _ _ _ _ pandas captures S) as [rest P].
      split.
      * etransitivity;
          [apply Nat.eq_le_incl; exact (fan_out_length (topics self) sel)|].
        apply Nat.mul_le_mono_r.
        rewrite <- (Permutation_length P), length_app. lia.
      * intros ts u Hin.
        apply (proj1 (fan_out_in (topics self) sel ts u)) in Hin
          as (orig & topic & Hin & Ht & ->).
        exists orig, topic. repeat split; try assumption.
        eapply Permutation_in; [exact P|]. apply in_or_app. now left.
    + cbn [bind] in H. injection H as <-. split.
      * apply Nat.eq_le_incl.
        exact (fan_out_length (topics self) (r :: records)).
      * intros ts u.
        exact (proj1 (fan_out_in (topics self) (r :: records) ts u)).
Qed.

Lemma get_all_records_sound_witness :
  pandas_ok (sample_world sample_article
               [("timestamp", "original");
                ("20250110123456", "http://www.marketwatch.com/");
                ("20250110133456", "https://www.marketwatch.com")])
  /\ exists l,
       get_all_records
         (sample_world sample_article
            [("timestamp", "original");
             ("20250110123456", "http://www.marketwatch.com/");
             ("20250110133456", "https://www.marketwatch.com")])
         (sample_scrapper 1) = Ok l
       /\ (List.length l <= 2 * 12)%nat.
Proof.
  split; [apply sample_world_pandas_ok|].
  eexists. split; [vm_compute; reflexivity|].
  refine (proj1 (get_all_records_sound
                   (sample_world sample_article
                      [("timestamp", "original");
                       ("20250110123456", "http://www.marketwatch.com/");
                       ("20250110133456", "https://www.marketwatch.com")])
                   (sample_scrapper 1)
                   [("20250110123456", "http://www.marketwatch.com/");
                    ("20250110133456", "https://www.marketwatch.com")]
                   _ (sample_world_pandas_ok _ _) eq_refl _)).
  vm_compute. reflexivity.
Defined.

Lemma sample_rows_zero w self df :
  pandas_ok w -> no_of_captures self = 0%Z -> sample_rows w self df = [].
Proof.
  intros pandas H0. unfold sample_rows.
  assert (captures : (0 <= no_of_captures self)%Z) by lia.
  generalize (groupby key_eqb key_ltb row_key
                (sort_values w Row row_datetime df)) as groups.
  induction groups as [|g groups IH]; [reflexivity|].
  cbn [flat_map]. rewrite IH, app_nil_r.
  apply length_zero_iff_nil.
  rewrite (random_choice_length w self pandas captures), H0. reflexivity.
Qed.

(** X13: with the capture limit 0 every record is dropped: whenever
    [get_all_records] returns, it returns the empty list, so the crawl
    fetches no page. *)
Theorem get_all_records_limit_zero (w : World) (self : Scrapper)
    (l : list (string * string)) :
  pandas_ok w ->
  no_of_captures self = 0%Z ->
  get_all_records w self = Ok l ->
  l = [].
Proof.
  intros pandas H0 H. unfold get_all_records in H.
  destruct (cdx_query w (site self) (start_date self) (end_date self))
    as [records|e]; [|discriminate].
  cbn [bind] in H. destruct records as [|r records]; [congruence|].
  rewrite H0 in H. cbn [Z.gtb Z.compare] in H.
  unfold sample_records in H.
  destruct (records_frame w (r :: records)) as [df|e]; [|discriminate].
  cbn [bind] in H. rewrite (sample_rows_zero w self df pandas H0) in H.
  now injection H as <-.
Qed.

Lemma get_all_records_limit_zero_witness :
  pandas_ok (sample_world sample_article
               [("timestamp", "original");
                ("20250110123456", "https://www.marketwatch.com")])
  /\ get_all_records
       (sample_world sample_article
          [("timestamp", "original");
           ("20250110123456", "https://www.marketwatch.com")])
       (sample_scrapper 0) = Ok [].
Proof.
  split; [apply sample_world_pandas_ok|].
  assert (H : exists l,
             get_all_records
               (sample_world sample_article
                  [("timestamp", "original");
                   ("20250110123456", "https://www.marketwatch.com")])
               (sample_scrapper 0) = Ok l)
    by (eexists; vm_compute; reflexivity).
  destruct H as [l H]. rewrite H. f_equal.
  exact (get_all_records_limit_zero _ (sample_scrapper 0) _
           (sample_world_pandas_ok _ _) eq_refl H).
Defined.

(** ** Link discovery *)

Lemma aggregate_links_inv w all_links groups :
  aggregate_links w all_links = Ok groups ->
  groups = map snd (groupby String.eqb String.ltb article_url all_links).
Proof.
  unfold aggregate_links. destruct (map_results _ all_links); [|discriminate].
  cbn [bind]. congruence.
Qed.

Lemma aggregate_links_perm (w : World) (all_links : list string)
    (groups : list (list string)) :
  aggregate_links w all_links = Ok groups ->
  Permutation (List.concat groups) all_links
  /\ (forall g, In g groups -> g <> []).
Proof.
  intros H. apply aggregate_links_inv in H. subst groups.
  destruct (groupby_groups_of String.eqb String.ltb article_url
              String.eqb_eq all_links) as (_ & Hcontent & _ & Hperm).
  split.
  - now rewrite <- flat_map_concat_map.
  - intros g Hg. apply in_map_iff in Hg as ([k xs] & <- & Hin).
    now destruct (Hcontent _ _ Hin).
Qed.

(** X14: the aggregation loses no link and invents none: whenever it
    returns, the variants of all groups together are the candidate links,
    each as many times as it was found, and no group is empty. *)
Theorem aggregate_links_partition (w : World) (all_links : list string)
    (groups : list (list string)) :
  aggregate_links w all_links = Ok groups ->
  Permutation (List.concat groups) all_links
  /\ (forall g, In g groups -> g <> []).
Proof. apply aggregate_links_perm. Qed.

Lemma aggregate_links_partition_witness :
  aggregate_links (sample_world sample_article [])
    [archive_link_1; "https://www.marketwatch.com/story/b-title-67890";
     archive_link_2]
  = Ok [[archive_link_1; archive_link_2];
        ["https://www.marketwatch.com/story/b-title-67890"]]
  /\ Permutation
       (List.concat [[archive_link_1; archive_link_2];
                     ["https://www.marketwatch.com/story/b-title-67890"]])
       [archive_link_1; "https://www.marketwatch.com/story/b-title-67890";
        archive_link_2].
Proof.
  assert (H : aggregate_links (sample_world sample_article [])
    [archive_link_1; "https://www.marketwatch.com/story/b-title-67890";
     archive_link_2]
  = Ok [[archive_link_1; archive_link_2];
        ["https://www.marketwatch.com/story/b-title-67890"]]) by (vm_compute; reflexivity).
  split; [exact H|].
  exact (proj1 (aggregate_links_partition _ _ _ H)).
Defined.

(** X15: one candidate link whose first run of eight digits is not a date
    makes the whole aggregation raise: the [date] column of line 389 is
    computed for every link before the grouping, and its error is not
    caught. *)
Theorem aggregate_links_bad_date (w : World) (all_links : list string) :
  Exists (fun url =>
            exists d e, search_digits 8 url = Some d
                        /\ to_datetime w "%Y%m%d" d = Raise e) all_links ->
  exists e, aggregate_links w all_links = Raise e.
Proof.
  intros H. unfold aggregate_links.
  assert (M : exists e,
             map_results
               (fun url =>
                  match search_digits 8 url with
                  | Some d => dt <- to_datetime w "%Y%m%d" d ;; Ok (Some dt)
                  | None => Ok None
                  end) all_links = Raise e).
  { induction H as [url rest (d & e & Hs & Ht)|url rest H IH].
    - exists e. cbn [map_results]. now rewrite Hs, Ht.
    - destruct IH as [e IH]. cbn [map_results]. rewrite IH.
      destruct (search_digits 8 url) as [d|]; cbn [bind]; [|eauto].
      destruct (to_datetime w "%Y%m%d" d); cbn [bind]; eauto. }
  destruct M as [e ->]. now exists e.
Qed.

Lemma aggregate_links_bad_date_witness :
  exists e,
    aggregate_links offline_world
      ["https://www.marketwatch.com/story/a-title-99999999"] = Raise e.
Proof.
  apply (aggregate_links_bad_date offline_world).
  constructor. exists "99999999", ValueError. split; reflexivity.
Defined.

Lemma map_results_in {A B : Type} (f : A -> result B) l ys y :
  map_results f l = Ok ys -> In y ys -> exists x, In x l /\ f x = Ok y.
Proof.
  revert ys. induction l as [|x l IH]; intros ys H Hy.
  - injection H as <-. destruct Hy.
  - cbn [map_results] in H. destruct (f x) as [y0|e] eqn:E; [|discriminate].
    cbn [bind] in H. destruct (map_results f l) as [ys0|e]; [|discriminate].
    cbn [bind] in H. injection H as <-. destruct Hy as [<-|Hy].
    + exists x. split; [now left | exact E].
    + destruct (IH ys0 eq_refl Hy) as (x' & Hx & Hf). exists x'.
      split; [now right | exact Hf].
Qed.

Lemma extend_links_in results acc u :
  In u (extend_links results acc) ->
  In u acc \/ exists result, In (Some result) results /\ In u result.
Proof.
  revert acc. induction results as [|[result|] rest IH]; intros acc H;
    cbn [extend_links] in H.
  - now left.
  - destruct (IH _ H) as [Hacc|(r & Hr & Hu)].
    + apply in_app_or in Hacc as [Hacc|Hres]; [now left|].
      right. exists result. split; [now left | exact Hres].
    + right. exists r. split; [now right | exact Hu].
  - destruct (IH _ H) as [Hacc|(r & Hr & Hu)]; [now left|].
    right. exists r. split; [now right | exact Hu].
Qed.

(** X16: every variant URL that link discovery hands to the article
    extraction was kept by the link loop of some fetched snapshot page: it
    passes the article test, starts with [http] and holds no exclusion
    pattern in any letter case. *)
Theorem variants_are_article_links (w : World)
    (records : list (string * string)) (groups : list (list string)) :
  set_to_list_ok w ->
  get_all_article_links w records = Ok groups ->
  forall g u,
    In g groups -> In u g ->
    is_article u = true
    /\ startswith "http" u = true
    /\ (forall pattern, In pattern EXCLUDE_PATTERNS ->
                        contains pattern (lower u) = false).
Proof.
  intros Hset H g u Hg Hu. unfold get_all_article_links in H.
  destruct (map_results (_do_get_article_links w) records) as [results|e]
    eqn:M; [|discriminate].
  cbn [bind] in H.
  destruct (aggregate_links_perm _ _ _ H) as [P _].
  assert (Hall : In u (extend_links results [])).
  { eapply Permutation_in; [exact P|]. apply in_concat. now exists g. }
  apply extend_links_in in Hall as [[]|(result & Hr & Hres)].
  destruct (map_results_in _ _ _ _ M Hr) as ([ts site] & _ & Hdo).
  unfold _do_get_article_links in Hdo.
  destruct (safe_get w _) as [[response|]|e]; cbn [bind] in Hdo;
    try discriminate.
  injection Hdo as <-. unfold extract_article_links in Hres.
  apply (proj1 (Hset _ _)) in Hres. apply (proj1 (Hset _ _)) in Hres.
  destruct (article_links_loop_kept _ _ Hres) as (A & B & C & _).
  now repeat split.
Qed.

Lemma variants_are_article_links_witness :
  set_to_list_ok (crawl_world sample_article [])
  /\ get_all_article_links (crawl_world sample_article [])
       [("20250110123456", "https://www.marketwatch.com/markets")]
     = Ok [[archive_link_1]]
  /\ is_article archive_link_1 = true.
Proof.
  assert (S : set_to_list_ok (crawl_world sample_article []))
    by (intros l x; apply nodup_In).
  assert (H : get_all_article_links (crawl_world sample_article [])
                [("20250110123456", "https://www.marketwatch.com/markets")]
              = Ok [[archive_link_1]]) by (vm_compute; reflexivity).
  split; [exact S|]. split; [exact H|].
  refine (proj1 (variants_are_article_links _ _ _ S H [archive_link_1]
                   archive_link_1 _ _)); now left.
Defined.



(** X18: an index answer that is fetched but cannot be read as JSON is not
    treated like a failed fetch: the exception of [resp.json()] leaves
    [cdx_query], [get_all_records] and [download] uncaught. *)
Theorem unreadable_index_raises (w : World) (self : Scrapper)
    (resp : Response) (e : exn) :
  safe_get w (cdx_url (site self) (start_date self) (end_date self))
  = Ok (Some resp) ->
  response_json w resp = Raise e ->
  cdx_query w (site self) (start_date self) (end_date self) = Raise e
  /\ get_all_records w self = Raise e
  /\ download w self = Raise e.
Proof.
  intros Hs Hj.
  assert (Q : cdx_query w (site self) (start_date self) (end_date self)
              = Raise e).
  { unfold cdx_query. rewrite Hs. cbn [bind]. now rewrite Hj. }
  assert (R : get_all_records w self = Raise e).
  { unfold get_all_records. now rewrite Q. }
  repeat split; try assumption. unfold download. now rewrite R.
Qed.

Lemma unreadable_index_raises_witness :
  download
    {| session_get := fun _ => Ok sample_page;
       response_json := fun _ => Raise ValueError;
       soup_hrefs := fun _ => [];
       set_to_list := nodup string_dec;
       parse_article := fun _ => Raise OtherException;
       re_search := fun _ _ => false;
       to_datetime := fun _ _ => Raise ValueError;
       sort_values := fun _ _ l => l;
       df_sample := fun _ _ n l => firstn n l |}
    (sample_scrapper (-1)) = Raise ValueError.
Proof.
  refine (proj2 (proj2 (unreadable_index_raises _ (sample_scrapper (-1))
                          sample_page ValueError _ _))); reflexivity.
Defined.

(** X19: the link loop drops no qualifying link: an [href] that is not
    empty, holds no exclusion pattern in any letter case, starts with [http]
    and, cut before its last [?mod], passes the article test is kept in that
    cut form. *)
Theorem article_links_loop_complete (hrefs : list string) (href : string) :
  In href hrefs ->
  existsb (fun pattern => contains pattern (lower href)) EXCLUDE_PATTERNS
  = false ->
  startswith "http" href = true ->
  is_article (rsplit1_first "?mod" href) = true ->
  In (rsplit1_first "?mod" href) (article_links_loop hrefs []).
Proof.
  intros Hin Hpat Hhttp Hart.
  assert (Hne : nonempty href = true) by (destruct href; [discriminate|easy]).
  assert (Hhash : startswith "#" href = false).
  { unfold startswith in *. destruct href as [|c href]; [reflexivity|].
    rewrite prefix_cons in *. apply andb_true_iff in Hhttp as [Hc _].
    apply Ascii.eqb_eq in Hc. now subst c. }
  induction hrefs as [|h rest IH]; [destruct Hin|].
  cbn [article_links_loop].
  destruct Hin as [->|Hin].
  - rewrite Hne, Hhash, Hpat, Hhttp, Hart. cbn [negb orb].
    rewrite article_links_loop_acc. now left.
  - destruct (_ || _); [now apply IH|].
    destruct (is_article (rsplit1_first "?mod" h)); [|now apply IH].
    rewrite article_links_loop_acc. right. now apply IH.
Qed.

Lemma article_links_loop_complete_witness :
  In (rsplit1_first "?mod"
        "https://www.marketwatch.com/story/a-title-12345?mod=home")
     (article_links_loop
        ["#top"; "https://www.marketwatch.com/story/a-title-12345?mod=home"]
        []).
Proof.
  apply article_links_loop_complete.
  - right. now left.
  - vm_compute. reflexivity.
  - reflexivity.
  - reflexivity.
Defined.
